(** * lidar_point_CNN_SVM_training.py: synchronizer and sample normalizer

    A shallow embedding of the data-preparation half of the script
    (extract_data_from_bag, plot3d_point_clouds, adjust_point_cloud_lengths,
    extract_and_adjust_data, prepare_data_for_training and the part of
    train_and_predict that precedes the Keras calls), followed by the
    properties of the specification that concern it.

    Conventions.
    - Python ints that are sequence numbers are [Z]; lengths are [nat], and
      the two places where the script negates a length ([-len(x) % k]) go
      through [Z] so that Python's non-negative remainder is written out.
    - Python floats are the kernel's binary64 floats; [nan] is [np.nan].
    - A dict is an association list in insertion order (Python 3.7+).
    - A NumPy array is its shape together with its items in row-major
      order, so that an array with no row still has a width.
    - An exception that ends a call is a [Raise] result. *)

From Stdlib.Strings Require Import String Byte.
From Stdlib Require Import ZArith Lia Bool PeanoNat Floats List.
Import ListNotations.

(** ** Exceptions and results *)

Inductive PyError : Type :=
| ValueError (msg : string)   (* a [raise ValueError(msg)] written in the script *)
| KeyError (key : Z)          (* subscript of a dict by a key it does not hold *)
| MinEmptyError               (* the ValueError of the builtin min() on an empty iterable *)
| PadWidthError               (* the ValueError of np.pad: pad_width does not fit ndim *)
| ReshapeError (size width : nat) (* the ValueError of ndarray.reshape(-1, width) *)
| ConcatenateError.           (* the ValueError of np.concatenate / np.vstack *)

Inductive result (A : Type) : Type :=
| Ok (a : A)
| Raise (e : PyError).
Arguments Ok {A} a.
Arguments Raise {A} e.

Definition bind {A B : Type} (c : result A) (k : A -> result B) : result B :=
  match c with
  | Ok a => k a
  | Raise e => Raise e
  end.

Notation "x <- c ;; k" := (bind c (fun x => k))
  (at level 61, c at next level, right associativity).
Notation "' p <- c ;; k" := (bind c (fun p => k))
  (at level 61, p pattern, c at next level, right associativity).

(** [for x in xs: body], the loop state threaded through the iterations. *)
Fixpoint for_each {X S : Type} (xs : list X) (body : S -> X -> result S) (s : S)
  : result S :=
  match xs with
  | [] => Ok s
  | x :: xs' => s' <- body s x ;; for_each xs' body s'
  end.

(** The builtin min() over the items an iterable yields. *)
Definition py_min (xs : list nat) : result nat :=
  match xs with
  | [] => Raise MinEmptyError
  | x :: xs' => Ok (fold_left Nat.min xs' x)
  end.

(** [-n % k] for a length [n]: Python's remainder takes the sign of [k]. *)
Definition neg_mod (n : nat) (k : Z) : nat :=
  Z.to_nat ((- Z.of_nat n) mod k).

(** ** Dicts keyed by sequence number *)

Module Dict.
Section WithValue.
Context {V : Type}.

Definition t : Type := list (Z * V).

Definition empty : t := [].

(** [d[k] = v]: a key already present keeps its place and takes the new
    value, a new key goes last. *)
Fixpoint set (k : Z) (v : V) (d : t) : t :=
  match d with
  | [] => [(k, v)]
  | (k', v') :: d' =>
      if Z.eqb k' k then (k', v) :: d' else (k', v') :: set k v d'
  end.

Fixpoint get (k : Z) (d : t) : option V :=
  match d with
  | [] => None
  | (k', v') :: d' => if Z.eqb k' k then Some v' else get k d'
  end.

(** [k in d] *)
Definition contains (k : Z) (d : t) : bool :=
  match get k d with
  | Some _ => true
  | None => false
  end.

(** [d[k]] *)
Definition getitem (k : Z) (d : t) : result V :=
  match get k d with
  | Some v => Ok v
  | None => Raise (KeyError k)
  end.

Definition keys (d : t) : list Z := map fst d.
Definition values (d : t) : list V := map snd d.

End WithValue.
Arguments t V : clear implicits.
End Dict.

(** ** NumPy arrays *)

Record ndarray (A : Type) : Type := NdArray { shape : list nat; data : list A }.
Arguments NdArray {A} shape data.
Arguments shape {A} n.
Arguments data {A} n.

(** [n] rows of [w] items cut from a row-major item list. *)
Fixpoint chunks {A : Type} (w n : nat) (l : list A) : list (list A) :=
  match n with
  | 0 => []
  | S n' => firstn w l :: chunks w n' (skipn w l)
  end.

Module Np.
Section WithItem.
Context {A : Type}.

(** A 1-D array of the given items (np.frombuffer, np.array of scalars). *)
Definition array1 (items : list A) : ndarray A := NdArray [length items] items.

(** [np.array([row])]: one row of [length row] columns. *)
Definition array_of_row (row : list A) : ndarray A :=
  NdArray [1; length row] row.

(** [len(a)] *)
Definition len (a : ndarray A) : nat := hd 0 (shape a).

(** [a.size] *)
Definition size (a : ndarray A) : nat := fold_right Nat.mul 1 (shape a).

(** Items under one index of axis 0. *)
Definition stride (a : ndarray A) : nat := fold_right Nat.mul 1 (tl (shape a)).

(** The sub-arrays along axis 0, each as its item list. *)
Definition blocks (a : ndarray A) : list (list A) :=
  chunks (stride a) (len a) (data a).

(** [np.pad(a, (0, after), mode='constant')] on a 1-D array, [zero] being the
    constant of the mode. *)
Definition pad_after (zero : A) (items : list A) (after : nat) : list A :=
  items ++ repeat zero after.

(** [a.reshape(-1, w)] *)
Definition reshape_rows (w : nat) (a : ndarray A) : result (ndarray A) :=
  if (w =? 0) || negb (size a mod w =? 0)
  then Raise (ReshapeError (size a) w)
  else Ok (NdArray [size a / w; w] (data a)).

(** [a[:m]] *)
Definition take (m : nat) (a : ndarray A) : ndarray A :=
  let n := Nat.min m (len a) in
  NdArray (n :: tl (shape a)) (firstn (n * stride a) (data a)).

(** [np.repeat(a, n, axis=0)] *)
Definition repeat0 (a : ndarray A) (n : nat) : ndarray A :=
  NdArray (len a * n :: tl (shape a))
          (flat_map (fun block => concat (repeat block n)) (blocks a)).

(** [np.pad(a, ((0, 0), (0, k)), mode='constant', constant_values=fill)]:
    the two pairs of pad_width fit a 2-D array only. *)
Definition pad_cols (a : ndarray A) (k : nat) (fill : A) : result (ndarray A) :=
  match shape a with
  | [r; c] =>
      Ok (NdArray [r; c + k]
                  (flat_map (fun row => row ++ repeat fill k) (chunks c r (data a))))
  | _ => Raise PadWidthError
  end.

(** [np.concatenate([a, b], axis=1)] on 2-D arrays of one dtype. *)
Definition concatenate1 (a b : ndarray A) : result (ndarray A) :=
  match shape a, shape b with
  | [r; c], [r'; c'] =>
      if r =? r'
      then Ok (NdArray [r; c + c']
                 (concat (map (fun p => fst p ++ snd p)
                              (combine (chunks c r (data a)) (chunks c' r' (data b))))))
      else Raise ConcatenateError
  | _, _ => Raise ConcatenateError
  end.

Definition ncols_is (c : nat) (a : ndarray A) : bool :=
  match shape a with
  | [_; c'] => c' =? c
  | _ => false
  end.

(** [np.vstack(arrays)] on 2-D arrays. *)
Definition vstack (arrays : list (ndarray A)) : result (ndarray A) :=
  match arrays with
  | [] => Raise ConcatenateError
  | a0 :: _ =>
      match shape a0 with
      | [_; c] =>
          if forallb (ncols_is c) arrays
          then Ok (NdArray [list_sum (map len arrays); c] (flat_map data arrays))
          else Raise ConcatenateError
      | _ => Raise ConcatenateError
      end
  end.

(** The rows of a 2-D array. *)
Definition rows (a : ndarray A) : list (list A) :=
  match shape a with
  | [r; c] => chunks c r (data a)
  | _ => []
  end.

End WithItem.

(** uint8 to float64, the promotion np.concatenate applies. *)
Definition float_of_byte (b : byte) : float :=
  PrimFloat.of_uint63 (Uint63.of_Z (Z.of_N (Byte.to_N b))).

Definition astype_float (a : ndarray byte) : ndarray float :=
  NdArray (shape a) (map float_of_byte (data a)).

End Np.

(** ** The log *)

Record Point : Type := { p_x : float; p_y : float; p_z : float }.
Record Quaternion : Type := { q_x : float; q_y : float; q_z : float; q_w : float }.

(** A message as [bag.read_messages()] yields it; the constructor stands for
    the topic, whose message type the log fixes. *)
Inductive Message : Type :=
| aligned_cloud (seq : Z) (msg_data : list byte)
    (* "/lidar_localizer/aligned_cloud", sensor_msgs/PointCloud2 *)
| lidar_pose (seq : Z) (position : Point) (orientation : Quaternion)
    (* "/lidar_localizer/lidar_pose", geometry_msgs/PoseWithCovarianceStamped *)
| other_topic (name : string).

Abbreviation Bag := (list Message) (only parsing).

(** A raw cloud: the 1-D uint8 array of [np.frombuffer(msg.data)], as its items. *)
Abbreviation RawCloud := (list byte) (only parsing).
(** A pose: the list of 7 floats built at line 69. *)
Abbreviation Pose := (list float) (only parsing).
(** A reshaped cloud: a uint8 array of shape (N, 3). *)
Abbreviation Cloud := (ndarray byte) (only parsing).

(** [[np.nan]*7] *)
Definition sentinel_pose : Pose := repeat nan 7.

(** The first loop of extract_data_from_bag, lines 59-72. *)
Definition read_messages (bag : Bag) : Dict.t RawCloud * Dict.t Pose :=
  fold_left
    (fun '(point_cloud_data, lidar_transform_data) msg =>
       match msg with
       | aligned_cloud seq msg_data =>
           (Dict.set seq msg_data point_cloud_data, lidar_transform_data)
       | lidar_pose seq position orientation =>
           (point_cloud_data,
            Dict.set seq
              [p_x position; p_y position; p_z position;
               q_x orientation; q_y orientation; q_z orientation; q_w orientation]
              lidar_transform_data)
       | other_topic _ => (point_cloud_data, lidar_transform_data)
       end)
    bag (Dict.empty, Dict.empty).

(** The synchronizer, lines 76-87. *)
Definition synchronize (point_cloud_data : Dict.t RawCloud)
  (lidar_transform_data : Dict.t Pose) (seq_offset : Z)
  : result (list RawCloud * list Pose) :=
  for_each (Dict.keys point_cloud_data)
    (fun '(synced_point_clouds, synced_poses) seq =>
       let corresponding_pose_seq := (seq + seq_offset)%Z in
       if Dict.contains corresponding_pose_seq lidar_transform_data
       then
         cloud <- Dict.getitem seq point_cloud_data ;;
         pose <- Dict.getitem corresponding_pose_seq lidar_transform_data ;;
         Ok (synced_point_clouds ++ [cloud], synced_poses ++ [pose])
       else
         cloud <- Dict.getitem seq point_cloud_data ;;
         Ok (synced_point_clouds ++ [cloud], synced_poses ++ [sentinel_pose]))
    ([], []).

(** ** plot3d_point_clouds, lines 157-169 and 204 *)

Definition divisible_by_3_msg : string :=
  "The total number of elements in the list must be divisible by 3.".

(** Lines 161-163: the padding of one cloud. *)
Definition pad_cloud (cloud : RawCloud) : RawCloud :=
  let needed_padding := neg_mod (length cloud) 3 in
  if 0 <? needed_padding
  then Np.pad_after x00 cloud needed_padding
  else cloud.

(** Lines 161-168: one iteration of the loop. *)
Definition reshape_cloud (cloud : RawCloud) : result Cloud :=
  let cloud := pad_cloud cloud in
  if negb (length cloud mod 3 =? 0)
  then Raise (ValueError divisible_by_3_msg)
  else Np.reshape_rows 3 (Np.array1 cloud).

Definition plot3d_point_clouds (point_clouds : list RawCloud)
  (lidar_poses : list Pose) : result (list Cloud) :=
  for_each point_clouds
    (fun reshaped_clouds cloud =>
       reshaped <- reshape_cloud cloud ;;
       Ok (reshaped_clouds ++ [reshaped]))
    [].

(** ** The pose table *)

Record DataFrame : Type := { df_columns : list string; df_rows : list (list float) }.

Definition pose_columns : list string :=
  ["pos_x"; "pos_y"; "pos_z"; "ori_x"; "ori_y"; "ori_z"; "ori_w"]%string.

(** What a loop over the second argument of adjust_point_cloud_lengths
    yields: a pose, or a column label when the argument is a DataFrame. *)
Inductive PoseItem : Type :=
| PoseRow (values : Pose)
| ColumnLabel (name : string).

(** Iterating a list of poses. *)
Definition iter_poses (poses : list Pose) : list PoseItem := map PoseRow poses.
(** Iterating a DataFrame: its column labels. *)
Definition iter_DataFrame (df : DataFrame) : list PoseItem :=
  map ColumnLabel (df_columns df).

(** An expanded pose: float64 when built from a pose, unicode when built
    from a label. *)
Inductive PoseArray : Type :=
| FloatArray (a : ndarray float)
| StrArray (a : ndarray string).

(** extract_data_from_bag, lines 57-114. *)
Definition extract_data_from_bag (bag_file : Bag) (seq_offset : Z)
  : result (list Cloud * DataFrame) :=
  let '(point_cloud_data, lidar_transform_data) := read_messages bag_file in
  '(synced_point_clouds, synced_poses) <-
     synchronize point_cloud_data lidar_transform_data seq_offset ;;
  point_cloud_data <- plot3d_point_clouds synced_point_clouds synced_poses ;;
  Ok (point_cloud_data, {| df_columns := pose_columns; df_rows := synced_poses |}).

(** ** adjust_point_cloud_lengths, lines 252-276 *)

(** Line 254: the generator handed to min(). *)
Definition reference_candidates (point_clouds : list Cloud) : list nat :=
  map Np.len (filter (fun pc => Np.len pc mod 3 =? 0) point_clouds).

(** Lines 264-273 on the array [one] that [np.array([pose])] is; [fill] is
    np.nan in the dtype of [one]. *)
Definition expand_array {A : Type} (one : ndarray A) (min_length : nat) (fill : A)
  : result (ndarray A) :=
  let repeated_pose := Np.repeat0 one min_length in
  let total_elements := Np.size repeated_pose in
  let needed_padding := neg_mod total_elements 7 in
  if 0 <? needed_padding
  then
    padded_pose <- Np.pad_cols repeated_pose needed_padding fill ;;
    Np.reshape_rows 7 padded_pose
  else Np.reshape_rows 7 repeated_pose.

Definition expand_pose (pose : PoseItem) (min_length : nat) : result PoseArray :=
  match pose with
  | PoseRow values =>
      a <- expand_array (Np.array_of_row values) min_length nan ;;
      Ok (FloatArray a)
  | ColumnLabel name =>
      a <- expand_array (Np.array1 [name]) min_length "nan"%string ;;
      Ok (StrArray a)
  end.

(** Lines 261-274: one iteration of the loop, on the two lists built so far. *)
Definition adjust_step (min_length : nat) (acc : list Cloud * list PoseArray)
  (item : Cloud * PoseItem) : result (list Cloud * list PoseArray) :=
  let '(adjusted_point_clouds, expanded_poses) := acc in
  let '(pc, pose) := item in
  if min_length <=? Np.len pc
  then
    expanded_pose <- expand_pose pose min_length ;;
    Ok (adjusted_point_clouds ++ [Np.take min_length pc],
        expanded_poses ++ [expanded_pose])
  else Ok (adjusted_point_clouds, expanded_poses).

(** The second argument is given as the items a loop over it yields
    ([iter_poses] of a list of poses, [iter_DataFrame] of a DataFrame). *)
Definition adjust_point_cloud_lengths (point_clouds : list Cloud)
  (lidar_poses : list PoseItem) : result (list Cloud * list PoseArray) :=
  min_length <- py_min (reference_candidates point_clouds) ;;
  for_each (combine point_clouds lidar_poses) (adjust_step min_length) ([], []).

(** The pairs that pass the guard of line 261. *)
Definition retained {X : Type} (min_length : nat) (pairs : list (Cloud * X))
  : list (Cloud * X) :=
  filter (fun p => min_length <=? Np.len (fst p)) pairs.

(** extract_and_adjust_data, lines 279-283: the poses it hands over are the
    DataFrame that extract_data_from_bag returns. *)
Definition extract_and_adjust_data (bag_file : Bag) (seq_offset : Z)
  : result (list Cloud * list PoseArray) :=
  '(point_clouds, lidar_poses) <- extract_data_from_bag bag_file seq_offset ;;
  adjust_point_cloud_lengths point_clouds (iter_DataFrame lidar_poses).

(** The normalizer of the specification on a batch of raw clouds and their
    poses: steps 1 and 2 are plot3d_point_clouds, steps 3 and 4 are
    adjust_point_cloud_lengths. *)
Definition normalize (raw_clouds : list RawCloud) (poses : list Pose)
  : result (list Cloud * list PoseArray) :=
  point_clouds <- plot3d_point_clouds raw_clouds poses ;;
  adjust_point_cloud_lengths point_clouds (iter_poses poses).

(** ** The training driver up to the model's construction *)

(** prepare_data_for_training, lines 285-289, on the samples that a loop
    over its two arguments yields. *)
Definition prepare_data_for_training (point_clouds : list Cloud)
  (lidar_poses : list (ndarray float)) : result (ndarray float) :=
  input_data <-
    for_each (combine point_clouds lidar_poses)
      (fun input_data '(pc, lp) =>
         reshaped <- Np.reshape_rows 3 pc ;;
         joined <- Np.concatenate1 (Np.astype_float reshaped) lp ;;
         Ok (input_data ++ [joined]))
      [] ;;
  Np.vstack input_data.

(** What train_and_predict has in hand at line 306: the width given to
    create_slfn_model, and the arrays given to train_test_split. *)
Record TrainingSetup : Type := {
  input_shape : nat;
  split_point_clouds : list Cloud;
  split_poses : list (ndarray float)
}.

(** Lines 299-305 of train_and_predict. *)
Definition training_setup (point_clouds : list Cloud)
  (poses : list (ndarray float)) : result TrainingSetup :=
  input_data <- prepare_data_for_training point_clouds poses ;;
  Ok {| input_shape := nth 1 (shape input_data) 0;
        split_point_clouds := point_clouds;
        split_poses := poses |}.

(** ** manual_split, lines 245-250 *)

(** [int(x)] for a float: the integer part, toward zero; [None] when int()
    raises (OverflowError on an infinity, ValueError on NaN). *)
Definition int_of_float (x : float) : option Z :=
  match Prim2SF x with
  | S754_zero _ => Some 0%Z
  | S754_infinity _ => None
  | S754_nan => None
  | S754_finite s m e =>
      let magnitude :=
        if (0 <=? e)%Z then (Zpos m * 2 ^ e)%Z else (Zpos m / 2 ^ (- e))%Z in
      Some (if s then (- magnitude)%Z else magnitude)
  end.

(** The float of a length, as [n * x] converts its int operand. *)
Definition float_of_len (n : nat) : float :=
  PrimFloat.of_uint63 (Uint63.of_Z (Z.of_nat n)).

(** Where a slice bound [k] falls in a sequence of [len] items: a negative
    bound counts from the end, and any bound is clipped to the sequence. *)
Definition slice_index (len : nat) (k : Z) : nat :=
  if (k <? 0)%Z
  then Z.to_nat (Z.max 0 (Z.of_nat len + k))
  else Nat.min (Z.to_nat k) len.

(** [xs[:k]] *)
Definition slice_to {A : Type} (xs : list A) (k : Z) : list A :=
  firstn (slice_index (length xs) k) xs.

(** [xs[k:]] *)
Definition slice_from {A : Type} (xs : list A) (k : Z) : list A :=
  skipn (slice_index (length xs) k) xs.

(** manual_split; [None] when int() raises at line 247. The default of
    [test_ratio] is 0.15. *)
Definition manual_split {A B : Type} (data : list A) (labels : list B)
  (test_ratio : float) : option (list A * list A * list B * list B) :=
  let total_samples := length data in
  match int_of_float (float_of_len total_samples * (1 - test_ratio))%float with
  | None => None
  | Some split_idx =>
      Some (slice_to data split_idx, slice_from data split_idx,
            slice_to labels split_idx, slice_from labels split_idx)
  end.

(** ** Vocabulary of the statements *)

(** An array of the given shape holding as many items as the shape says. *)
Definition has_shape {A : Type} (a : ndarray A) (sh : list nat) : Prop :=
  shape a = sh /\ length (data a) = fold_right Nat.mul 1 sh.

(** The messages of the point-cloud topic, in arrival order. *)
Definition cloud_records (bag : Bag) : list (Z * RawCloud) :=
  flat_map (fun msg =>
              match msg with
              | aligned_cloud seq msg_data => [(seq, msg_data)]
              | _ => []
              end) bag.

(** The pose the synchronizer pairs with the cloud of sequence number [s]. *)
Definition pose_for (lidar_transform_data : Dict.t Pose) (seq_offset s : Z) : Pose :=
  match Dict.get (s + seq_offset)%Z lidar_transform_data with
  | Some pose => pose
  | None => sentinel_pose
  end.

(** Number of rows a raw cloud has once padded and reshaped. *)
Definition row_count (cloud : RawCloud) : nat := length (pad_cloud cloud) / 3.

(** The reference length of line 254 in a run of the normalizer on the
    given raw clouds. *)
Definition reference_length (raw_clouds : list RawCloud) : result nat :=
  point_clouds <- plot3d_point_clouds raw_clouds [] ;;
  py_min (reference_candidates point_clouds).

(** The reference length as the specification words it: the least row count
    among the clouds whose raw length was already divisible by 3. *)
Definition spec_reference_length (raw_clouds : list RawCloud) : result nat :=
  py_min (map row_count (filter (fun cloud => length cloud mod 3 =? 0) raw_clouds)).

(** Whether an error comes from a [raise] statement of the script. *)
Definition raised_by_script (e : PyError) : bool :=
  match e with
  | ValueError _ => true
  | _ => false
  end.

(** The sequence numbers of a list in order of first appearance, which is
    the order in which a dict lists keys that were set one after another. *)
Definition first_seen (seqs : list Z) : list Z :=
  fold_left (fun acc k => if existsb (Z.eqb k) acc then acc else acc ++ [k]) seqs [].

(** The messages of the pose topic, in arrival order, each with the pose
    list that line 69 builds from it. *)
Definition pose_records (bag : Bag) : list (Z * Pose) :=
  flat_map (fun msg =>
              match msg with
              | lidar_pose seq position orientation =>
                  [(seq, [p_x position; p_y position; p_z position;
                          q_x orientation; q_y orientation; q_z orientation;
                          q_w orientation])]
              | _ => []
              end) bag.

(** The dict that setting the given records one after another leaves. *)
Definition dict_of_records {V : Type} (records : list (Z * V)) (d : Dict.t V)
  : Dict.t V :=
  fold_left (fun d kv => Dict.set (fst kv) (snd kv) d) records d.

(** The cloud array that plot3d_point_clouds makes of a raw cloud. *)
Definition reshaped (cloud : RawCloud) : Cloud :=
  NdArray [row_count cloud; 3] (pad_cloud cloud).

(** A pose of 7 values, as an item of the loop. *)
Definition is_pose_row (item : PoseItem) : Prop :=
  exists values, item = PoseRow values /\ length values = 7.

(** The rows of one sample of the feature table: row [i] of the cloud, as
    floats, followed by row [i] of its expanded pose. *)
Definition joined_rows (pc : ndarray byte) (lp : ndarray float) : list (list float) :=
  map (fun p => fst p ++ snd p)
      (combine (Np.rows (Np.astype_float pc)) (Np.rows lp)).

(** ** Inputs of the examples *)

(** The log of the specification's example: clouds 10, 20, 30 and poses
    35, 55, interleaved as they were recorded. *)
Definition pose_35 : Pose := [1; 2; 3; 0; 0; 0; 1]%float.
Definition pose_55 : Pose := [4; 5; 6; 0; 0; 1; 0]%float.
Definition cloud_10 : RawCloud := [x01; x02; x03].
Definition cloud_20 : RawCloud := [x04; x05; x06; x07].
Definition cloud_30 : RawCloud := [x08; x09; x0a; x0b; x0c; x0d].
Definition example_bag : Bag :=
  [ aligned_cloud 10 cloud_10;
    lidar_pose 35 {| p_x := 1; p_y := 2; p_z := 3 |}
                  {| q_x := 0; q_y := 0; q_z := 0; q_w := 1 |};
    aligned_cloud 20 cloud_20;
    other_topic "/tf";
    aligned_cloud 30 cloud_30;
    lidar_pose 55 {| p_x := 4; p_y := 5; p_z := 6 |}
                  {| q_x := 0; q_y := 0; q_z := 1; q_w := 0 |} ].

(** A log whose point-cloud topic repeats a sequence number: clouds under
    10, 20 and 10 again, and the pose under 35. *)
Definition repeated_seq_bag : list Message :=
  [ aligned_cloud 10 cloud_10;
    aligned_cloud 20 cloud_20;
    lidar_pose 35 {| p_x := 1; p_y := 2; p_z := 3 |}
                  {| q_x := 0; q_y := 0; q_z := 0; q_w := 1 |};
    aligned_cloud 10 cloud_30 ].

(** A raw cloud of [n] values, for the examples. *)
Definition raw_cloud (n : nat) : RawCloud := repeat x01 n.

(** A log of 8 point clouds of 63 values each and no pose. *)
Definition eight_cloud_bag : list Message :=
  map (fun seq => aligned_cloud seq (raw_cloud 63)) [1; 2; 3; 4; 5; 6; 7; 8]%Z.

(** * Properties *)

(** ** Dicts *)

Section DictFacts.
Context {V : Type}.
Implicit Types (d : Dict.t V) (k : Z) (v : V).

Lemma get_set d k v s :
  Dict.get s (Dict.set k v d) = if Z.eqb k s then Some v else Dict.get s d.
Proof.
  induction d as [|[k' v'] d IH]; simpl.
  - reflexivity.
  - destruct (Z.eqb k' k) eqn:Ek; simpl.
    + apply Z.eqb_eq in Ek; subst k'. destruct (Z.eqb k s); reflexivity.
    + destruct (Z.eqb k' s) eqn:Es.
      * apply Z.eqb_eq in Es; subst k'.
        rewrite Z.eqb_sym, Ek. reflexivity.
      * exact IH.
Qed.

Lemma get_app d1 d2 s :
  Dict.get s (d1 ++ d2) =
  match Dict.get s d1 with Some v => Some v | None => Dict.get s d2 end.
Proof.
  induction d1 as [|[k' v'] d1 IH]; simpl; [reflexivity|].
  destruct (Z.eqb k' s); [reflexivity | exact IH].
Qed.

Lemma set_absent d k v : ~ In k (Dict.keys d) -> Dict.set k v d = d ++ [(k, v)].
Proof.
  induction d as [|[k' v'] d IH]; simpl; intros H; [reflexivity|].
  destruct (Z.eqb k' k) eqn:E.
  - apply Z.eqb_eq in E. exfalso; auto.
  - f_equal. apply IH. tauto.
Qed.

Lemma keys_set d k v :
  Dict.keys (Dict.set k v d) =
  if existsb (Z.eqb k) (Dict.keys d) then Dict.keys d else Dict.keys d ++ [k].
Proof.
  unfold Dict.keys.
  induction d as [|[k' v'] d IH]; simpl; [reflexivity|].
  rewrite (Z.eqb_sym k k').
  destruct (Z.eqb k' k) eqn:E; simpl.
  - apply Z.eqb_eq in E; subst. reflexivity.
  - rewrite IH.
    destruct (existsb (Z.eqb k) (map fst d)); reflexivity.
Qed.

Lemma NoDup_keys_set d k v : NoDup (Dict.keys d) -> NoDup (Dict.keys (Dict.set k v d)).
Proof.
  intros H. rewrite keys_set.
  destruct (existsb (Z.eqb k) (Dict.keys d)) eqn:E; [exact H|].
  apply NoDup_app; [exact H | repeat constructor; simpl; tauto |].
  intros x Hx [<-|[]].
  assert (existsb (Z.eqb k) (Dict.keys d) = true); [|congruence].
  apply existsb_exists. exists k. split; [exact Hx | apply Z.eqb_refl].
Qed.

Lemma NoDup_keys_dict_of_records (records : list (Z * V)) d :
  NoDup (Dict.keys d) -> NoDup (Dict.keys (dict_of_records records d)).
Proof.
  unfold dict_of_records. revert d.
  induction records as [|[k v] records IH]; intros d H; cbn [fold_left fst snd].
  - exact H.
  - apply IH, NoDup_keys_set, H.
Qed.

Lemma keys_dict_of_records (records : list (Z * V)) d :
  Dict.keys (dict_of_records records d) =
  fold_left (fun acc k => if existsb (Z.eqb k) acc then acc else acc ++ [k])
            (map fst records) (Dict.keys d).
Proof.
  unfold dict_of_records. revert d.
  induction records as [|[k v] records IH]; intros d; cbn [fold_left map fst snd].
  - reflexivity.
  - rewrite IH, keys_set. reflexivity.
Qed.

Lemma get_dict_of_records (records : list (Z * V)) d s :
  Dict.get s (dict_of_records records d) =
  match Dict.get s (rev records) with Some v => Some v | None => Dict.get s d end.
Proof.
  unfold dict_of_records. revert d.
  induction records as [|[k v] records IH]; intros d; cbn [fold_left rev fst snd].
  - reflexivity.
  - rewrite IH, get_app, get_set. simpl.
    destruct (Dict.get s (rev records)); [reflexivity|].
    destruct (Z.eqb k s); reflexivity.
Qed.

Lemma dict_of_distinct_records (records : list (Z * V)) d :
  NoDup (Dict.keys d ++ map fst records) ->
  dict_of_records records d = d ++ records.
Proof.
  unfold dict_of_records. revert d.
  induction records as [|[k v] records IH]; intros d H; cbn [fold_left map fst snd] in *.
  - symmetry; apply app_nil_r.
  - assert (Hk : ~ In k (Dict.keys d)).
    { apply NoDup_remove_2 in H. intros Hin. apply H, in_or_app. now left. }
    rewrite (set_absent d k v Hk), IH.
    + rewrite <- app_assoc. reflexivity.
    + unfold Dict.keys. rewrite map_app. simpl. rewrite <- app_assoc. exact H.
Qed.

Lemma get_of_entry d k v : NoDup (Dict.keys d) -> In (k, v) d -> Dict.get k d = Some v.
Proof.
  induction d as [|[k' v'] d IH]; simpl; intros Hnd Hin; [contradiction|].
  inversion Hnd as [|? ? Hnotin Hnd']; subst.
  destruct Hin as [E|Hin].
  - inversion E; subst. rewrite Z.eqb_refl. reflexivity.
  - destruct (Z.eqb k' k) eqn:E.
    + apply Z.eqb_eq in E; subst. exfalso. apply Hnotin.
      change k with (fst (k, v)). apply in_map, Hin.
    + apply IH; assumption.
Qed.

End DictFacts.

(** ** Step 1 and step 2: padding and reshaping *)

Lemma neg_mod_3_spec (n : nat) :
  neg_mod n 3 < 3 /\ (n + neg_mod n 3) mod 3 = 0
  /\ (n mod 3 = 0 -> neg_mod n 3 = 0).
Proof.
  unfold neg_mod.
  pose proof (Z.mod_pos_bound (- Z.of_nat n) 3 eq_refl) as Hb.
  pose proof (Z.div_mod (- Z.of_nat n) 3 ltac:(discriminate)) as Hd.
  set (r := ((- Z.of_nat n) mod 3)%Z) in *.
  set (q := ((- Z.of_nat n) / 3)%Z) in *.
  split; [lia|]. split.
  - apply Nat2Z.inj. rewrite Nat2Z.inj_mod, Nat2Z.inj_add, Z2Nat.id by lia.
    replace (Z.of_nat n + r)%Z with ((- q) * 3)%Z by lia.
    apply Z.mod_mul. discriminate.
  - intros Hn.
    assert (Hz : (Z.of_nat n mod 3 = 0)%Z).
    { change 3%Z with (Z.of_nat 3). rewrite <- Nat2Z.inj_mod, Hn. reflexivity. }
    apply Z.mod_divide in Hz; [|discriminate]. destruct Hz as [m Hm].
    assert (r = 0%Z); [|lia].
    unfold r. rewrite Hm, <- Z.mul_opp_l. apply Z.mod_mul. discriminate.
Qed.

Lemma pad_cloud_spec (cloud : RawCloud) :
  pad_cloud cloud = cloud ++ repeat x00 (neg_mod (length cloud) 3).
Proof.
  unfold pad_cloud, Np.pad_after. cbv zeta.
  destruct (0 <? neg_mod (length cloud) 3) eqn:E; [reflexivity|].
  apply Nat.ltb_ge in E.
  replace (neg_mod (length cloud) 3) with 0 by lia.
  simpl. symmetry; apply app_nil_r.
Qed.

Lemma length_pad_cloud (cloud : RawCloud) :
  length (pad_cloud cloud) = length cloud + neg_mod (length cloud) 3.
Proof. rewrite pad_cloud_spec, length_app, repeat_length. reflexivity. Qed.

Lemma pad_cloud_aligned (cloud : RawCloud) : length (pad_cloud cloud) mod 3 = 0.
Proof. rewrite length_pad_cloud. apply neg_mod_3_spec. Qed.

Lemma reshape_cloud_ok (cloud : RawCloud) :
  reshape_cloud cloud = Ok (NdArray [row_count cloud; 3] (pad_cloud cloud)).
Proof.
  unfold reshape_cloud, row_count. cbv zeta.
  rewrite pad_cloud_aligned. cbn [Nat.eqb negb].
  unfold Np.reshape_rows, Np.size, Np.array1. cbn [shape data fold_right].
  rewrite Nat.mul_1_r, pad_cloud_aligned. reflexivity.
Qed.

Lemma plot3d_point_clouds_loop (point_clouds : list RawCloud) (acc : list Cloud) :
  for_each point_clouds
    (fun reshaped_clouds cloud =>
       reshaped <- reshape_cloud cloud ;;
       Ok (reshaped_clouds ++ [reshaped]))
    acc
  = Ok (acc ++ map (fun cloud => NdArray [row_count cloud; 3] (pad_cloud cloud))
                   point_clouds).
Proof.
  revert acc. induction point_clouds as [|cloud rest IH]; intros acc; cbn [for_each map].
  - now rewrite app_nil_r.
  - rewrite reshape_cloud_ok. cbn [bind]. rewrite IH, <- app_assoc. reflexivity.
Qed.

Lemma plot3d_point_clouds_ok (point_clouds : list RawCloud) (lidar_poses : list Pose) :
  plot3d_point_clouds point_clouds lidar_poses
  = Ok (map (fun cloud => NdArray [row_count cloud; 3] (pad_cloud cloud)) point_clouds).
Proof. unfold plot3d_point_clouds. now rewrite plot3d_point_clouds_loop. Qed.

(** C7. Step 1 appends zeros, fewer than 3 of them, to the raw values of a
    cloud; the padded length is divisible by 3; a cloud whose raw length is
    already divisible by 3 is left as it is. *)
Theorem C7_padding_aligns_and_spares_aligned (cloud : RawCloud) :
  (exists k, k < 3 /\ pad_cloud cloud = cloud ++ repeat x00 k)
  /\ length (pad_cloud cloud) mod 3 = 0
  /\ (length cloud mod 3 = 0 -> pad_cloud cloud = cloud).
Proof.
  split; [|split].
  - exists (neg_mod (length cloud) 3). split.
    + apply neg_mod_3_spec.
    + apply pad_cloud_spec.
  - apply pad_cloud_aligned.
  - intros H. rewrite pad_cloud_spec.
    replace (neg_mod (length cloud) 3) with 0.
    + apply app_nil_r.
    + symmetry. now apply neg_mod_3_spec.
Qed.

(** C7 at a cloud of 6 raw values, which padding returns unchanged. *)
Lemma C7_witness :
  length cloud_30 mod 3 = 0 /\ pad_cloud cloud_30 = cloud_30.
Proof.
  split; [reflexivity|].
  apply (proj2 (proj2 (C7_padding_aligns_and_spares_aligned cloud_30))).
  reflexivity.
Defined.

(** C9. The check of line 164 never fires: whatever the cloud, its length
    after the padding of lines 161-163 is divisible by 3, so one iteration
    of the loop never ends in the ValueError of line 165, and
    plot3d_point_clouds returns the reshaped clouds for every input. *)
Theorem C9_divisibility_check_unreachable :
  (forall cloud : RawCloud,
      negb (length (pad_cloud cloud) mod 3 =? 0) = false
      /\ forall msg, reshape_cloud cloud <> Raise (ValueError msg))
  /\ (forall (point_clouds : list RawCloud) (lidar_poses : list Pose),
         exists reshaped_clouds,
           plot3d_point_clouds point_clouds lidar_poses = Ok reshaped_clouds
           /\ length reshaped_clouds = length point_clouds).
Proof.
  split.
  - intros cloud. split.
    + now rewrite pad_cloud_aligned.
    + intros msg. rewrite reshape_cloud_ok. discriminate.
  - intros point_clouds lidar_poses. eexists. split.
    + apply plot3d_point_clouds_ok.
    + apply length_map.
Qed.

(** ** The synchronizer *)

Lemma read_messages_from (bag : Bag) (pcd : Dict.t RawCloud) (ltd : Dict.t Pose) :
  fold_left
    (fun '(point_cloud_data, lidar_transform_data) msg =>
       match msg with
       | aligned_cloud seq msg_data =>
           (Dict.set seq msg_data point_cloud_data, lidar_transform_data)
       | lidar_pose seq position orientation =>
           (point_cloud_data,
            Dict.set seq
              [p_x position; p_y position; p_z position;
               q_x orientation; q_y orientation; q_z orientation; q_w orientation]
              lidar_transform_data)
       | other_topic _ => (point_cloud_data, lidar_transform_data)
       end)
    bag (pcd, ltd)
  = (dict_of_records (cloud_records bag) pcd, dict_of_records (pose_records bag) ltd).
Proof.
  revert pcd ltd. induction bag as [|msg bag IH]; intros pcd ltd.
  - reflexivity.
  - destruct msg; cbn [fold_left]; rewrite IH; reflexivity.
Qed.

Lemma read_messages_records (bag : Bag) :
  read_messages bag =
  (dict_of_records (cloud_records bag) Dict.empty,
   dict_of_records (pose_records bag) Dict.empty).
Proof. apply read_messages_from. Qed.

Section Synchronize.
Variables (point_cloud_data : Dict.t RawCloud) (lidar_transform_data : Dict.t Pose).
Variable seq_offset : Z.

Lemma synchronize_loop (entries : list (Z * RawCloud))
  (synced_point_clouds : list RawCloud) (synced_poses : list Pose) :
  (forall k v, In (k, v) entries -> Dict.get k point_cloud_data = Some v) ->
  for_each (map fst entries)
    (fun '(synced_point_clouds, synced_poses) seq =>
       let corresponding_pose_seq := (seq + seq_offset)%Z in
       if Dict.contains corresponding_pose_seq lidar_transform_data
       then
         cloud <- Dict.getitem seq point_cloud_data ;;
         pose <- Dict.getitem corresponding_pose_seq lidar_transform_data ;;
         Ok (synced_point_clouds ++ [cloud], synced_poses ++ [pose])
       else
         cloud <- Dict.getitem seq point_cloud_data ;;
         Ok (synced_point_clouds ++ [cloud], synced_poses ++ [sentinel_pose]))
    (synced_point_clouds, synced_poses)
  = Ok (synced_point_clouds ++ map snd entries,
        synced_poses
          ++ map (fun kv => pose_for lidar_transform_data seq_offset (fst kv)) entries).
Proof.
  revert synced_point_clouds synced_poses.
  induction entries as [|[k v] entries IH]; intros cs ps H.
  - simpl. rewrite !app_nil_r. reflexivity.
  - cbn [map fst snd for_each].
    assert (Hk : Dict.getitem k point_cloud_data = Ok v).
    { unfold Dict.getitem. rewrite (H k v); [reflexivity | now left]. }
    unfold Dict.contains, pose_for. cbv zeta. rewrite Hk.
    unfold Dict.getitem at 1.
    destruct (Dict.get (k + seq_offset)%Z lidar_transform_data) as [pose|] eqn:E;
      cbn [bind]; rewrite IH by (intros; apply H; now right);
      rewrite <- !app_assoc; reflexivity.
Qed.

Lemma synchronize_spec :
  NoDup (Dict.keys point_cloud_data) ->
  synchronize point_cloud_data lidar_transform_data seq_offset
  = Ok (Dict.values point_cloud_data,
        map (pose_for lidar_transform_data seq_offset) (Dict.keys point_cloud_data)).
Proof.
  intros H. unfold synchronize, Dict.keys, Dict.values.
  rewrite synchronize_loop by (intros; now apply get_of_entry).
  rewrite map_map. reflexivity.
Qed.

End Synchronize.

Lemma extract_data_from_bag_ok (bag_file : Bag) (seq_offset : Z) :
  extract_data_from_bag bag_file seq_offset
  = Ok (map reshaped (Dict.values (fst (read_messages bag_file))),
        {| df_columns := pose_columns;
           df_rows := map (pose_for (snd (read_messages bag_file)) seq_offset)
                          (Dict.keys (fst (read_messages bag_file))) |}).
Proof.
  unfold extract_data_from_bag. rewrite read_messages_records. cbn [fst snd].
  rewrite synchronize_spec by (apply NoDup_keys_dict_of_records; constructor).
  cbn [bind]. rewrite plot3d_point_clouds_ok. reflexivity.
Qed.

(** C1 as worded fails on a log that repeats a point-cloud sequence number:
    of the three point-cloud records, arrived as clouds 10, 20 and 10 again,
    line 65 keeps two, the later cloud of 10 in the place of the earlier, so
    the synchronizer emits two pairs for three records and the cloud that
    arrived last comes first. *)
Lemma C1_counterexample :
  cloud_records repeated_seq_bag = [(10, cloud_10); (20, cloud_20); (10, cloud_30)]%Z
  /\ synchronize (fst (read_messages repeated_seq_bag))
                 (snd (read_messages repeated_seq_bag)) 25
     = Ok ([cloud_30; cloud_20], [pose_35; sentinel_pose])
  /\ (forall clouds poses,
         synchronize (fst (read_messages repeated_seq_bag))
                     (snd (read_messages repeated_seq_bag)) 25
         = Ok (clouds, poses) ->
         length clouds <> length (cloud_records repeated_seq_bag)
         /\ clouds <> map snd (cloud_records repeated_seq_bag)).
Proof.
  split; [reflexivity|]. split; [reflexivity|].
  intros clouds poses H. vm_compute in H. injection H as <- <-.
  split; discriminate.
Qed.

(** C1, amended. For every log and offset the synchronizer returns, for the
    point-cloud records held under their sequence numbers, in their order,
    the cloud of each sequence number [s] paired with the pose recorded
    under [s + offset] when there is one and with the sentinel of 7 NaN
    otherwise; the two sequences have the same length, and they are what
    extract_data_from_bag returns, the clouds reshaped and the poses as the
    rows of its table. The records are
    listed in order of first arrival, a sequence number carries the cloud
    (the pose) that arrived last under it, and when the sequence numbers of
    the clouds are pairwise distinct the records are the point-cloud
    messages in arrival order. On clouds 10, 20, 30, poses 35, 55 and
    offset 25 the pairs are (10, 35), (20, sentinel), (30, 55). *)
Theorem C1_synchronizer_pairs_in_cloud_order :
  (forall (bag : Bag) (seq_offset : Z),
      let point_cloud_data := fst (read_messages bag) in
      let lidar_transform_data := snd (read_messages bag) in
      exists clouds poses,
        synchronize point_cloud_data lidar_transform_data seq_offset = Ok (clouds, poses)
        /\ extract_data_from_bag bag seq_offset
           = Ok (map reshaped clouds, {| df_columns := pose_columns; df_rows := poses |})
        /\ length clouds = length poses
        /\ combine clouds poses =
           map (fun kv => (snd kv, pose_for lidar_transform_data seq_offset (fst kv)))
               point_cloud_data
        /\ Dict.keys point_cloud_data = first_seen (map fst (cloud_records bag))
        /\ (forall s, Dict.get s point_cloud_data = Dict.get s (rev (cloud_records bag)))
        /\ (forall s, Dict.get s lidar_transform_data = Dict.get s (rev (pose_records bag)))
        /\ (NoDup (map fst (cloud_records bag)) -> point_cloud_data = cloud_records bag))
  /\ sentinel_pose = [nan; nan; nan; nan; nan; nan; nan]
  /\ synchronize (fst (read_messages example_bag)) (snd (read_messages example_bag)) 25
     = Ok ([cloud_10; cloud_20; cloud_30], [pose_35; sentinel_pose; pose_55]).
Proof.
  split; [|split; reflexivity].
  intros bag seq_offset. rewrite read_messages_records. cbn [fst snd]. cbv zeta.
  set (pcd := dict_of_records (cloud_records bag) Dict.empty).
  set (ltd := dict_of_records (pose_records bag) Dict.empty).
  assert (Hnd : NoDup (Dict.keys pcd))
    by (apply NoDup_keys_dict_of_records; constructor).
  exists (Dict.values pcd), (map (pose_for ltd seq_offset) (Dict.keys pcd)).
  split; [apply synchronize_spec, Hnd|].
  split.
  { rewrite extract_data_from_bag_ok, read_messages_records. reflexivity. }
  split; [unfold Dict.values, Dict.keys; now rewrite !length_map|].
  split.
  { unfold Dict.values, Dict.keys. clear Hnd.
    induction pcd as [|[k v] d IH]; simpl; [reflexivity | now rewrite IH]. }
  split; [apply keys_dict_of_records|].
  split; [intros s; unfold pcd; rewrite get_dict_of_records;
          now destruct (Dict.get s (rev (cloud_records bag)))|].
  split; [intros s; unfold ltd; rewrite get_dict_of_records;
          now destruct (Dict.get s (rev (pose_records bag)))|].
  intros H. unfold pcd. now rewrite dict_of_distinct_records.
Qed.

(** The general statement of C1 at the example log, whose cloud sequence
    numbers are distinct. *)
Lemma C1_witness :
  NoDup (map fst (cloud_records example_bag))
  /\ fst (read_messages example_bag) = cloud_records example_bag.
Proof.
  assert (H : NoDup (map fst (cloud_records example_bag))).
  { simpl. repeat constructor; simpl; intuition discriminate. }
  split; [exact H|].
  destruct (proj1 C1_synchronizer_pairs_in_cloud_order example_bag 25%Z)
    as (clouds & poses & _ & _ & _ & _ & _ & _ & _ & Hrec).
  exact (Hrec H).
Defined.

(** ** Rows of an item list *)

Section Chunks.
Context {A : Type}.
Implicit Types (l : list A) (w n : nat).

Lemma chunks_length w n l : length (chunks w n l) = n.
Proof.
  revert l. induction n as [|n IH]; intros l; simpl; [reflexivity|].
  now rewrite IH.
Qed.

Lemma chunks_concat w (rs : list (list A)) :
  Forall (fun r => length r = w) rs ->
  chunks w (length rs) (concat rs) = rs.
Proof.
  induction 1 as [|r rs Hr _ IH]; simpl; [reflexivity|].
  rewrite firstn_app, skipn_app, Hr, Nat.sub_diag, firstn_O, skipn_O, app_nil_r.
  rewrite <- Hr at 1. rewrite firstn_all, <- Hr, skipn_all. simpl.
  rewrite Hr, IH. reflexivity.
Qed.

Lemma Forall_length_chunks w n l :
  length l = n * w -> Forall (fun r => length r = w) (chunks w n l).
Proof.
  revert l. induction n as [|n IH]; intros l H; simpl; constructor.
  - rewrite length_firstn. simpl in H. lia.
  - apply IH. rewrite length_skipn. simpl in H. lia.
Qed.

Lemma concat_repeat_length (v : list A) n :
  length (concat (repeat v n)) = n * length v.
Proof. induction n as [|n IH]; simpl; [reflexivity|]. rewrite length_app, IH. reflexivity. Qed.

Lemma chunks_concat_repeat (v : list A) n :
  chunks (length v) n (concat (repeat v n)) = repeat v n.
Proof.
  rewrite <- (repeat_length v n) at 1.
  apply chunks_concat, Forall_forall. intros r Hr.
  now apply repeat_spec in Hr; subst.
Qed.

End Chunks.

(** ** Step 4: pose expansion *)

Lemma neg_mod_7_multiple (m : nat) : neg_mod (m * 7) 7 = 0.
Proof.
  unfold neg_mod.
  pose proof (Z.div_mod (- Z.of_nat (m * 7)) 7 ltac:(discriminate)).
  pose proof (Z.mod_pos_bound (- Z.of_nat (m * 7)) 7 eq_refl).
  lia.
Qed.

Lemma neg_mod_7_zero_iff (m : nat) : neg_mod m 7 = 0 <-> m mod 7 = 0.
Proof.
  unfold neg_mod.
  pose proof (Nat.div_mod_eq m 7).
  pose proof (Nat.mod_upper_bound m 7 ltac:(discriminate)).
  pose proof (Z.div_mod (- Z.of_nat m) 7 ltac:(discriminate)).
  pose proof (Z.mod_pos_bound (- Z.of_nat m) 7 eq_refl).
  lia.
Qed.

Lemma repeat0_row {A : Type} (values : list A) (m : nat) :
  Np.repeat0 (Np.array_of_row values) m
  = NdArray [m; length values] (concat (repeat values m)).
Proof.
  unfold Np.repeat0, Np.blocks, Np.stride, Np.len, Np.array_of_row.
  cbn [shape data hd tl fold_right chunks flat_map].
  rewrite Nat.mul_1_r, firstn_all, app_nil_r, Nat.mul_1_l. reflexivity.
Qed.

Lemma repeat0_scalar {A : Type} (x : A) (m : nat) :
  Np.repeat0 (Np.array1 [x]) m = NdArray [m] (repeat x m).
Proof.
  unfold Np.repeat0, Np.blocks, Np.stride, Np.len, Np.array1.
  cbn [length shape data hd tl fold_right chunks flat_map firstn].
  rewrite app_nil_r, Nat.mul_1_l. f_equal.
  induction m as [|m IH]; simpl; [reflexivity | now rewrite IH].
Qed.

Lemma expand_pose_row (values : Pose) (m : nat) :
  length values = 7 ->
  expand_pose (PoseRow values) m
  = Ok (FloatArray (NdArray [m; 7] (concat (repeat values m)))).
Proof.
  intros H. unfold expand_pose, expand_array. cbv zeta.
  rewrite repeat0_row, H. unfold Np.size. cbn [shape fold_right].
  rewrite Nat.mul_1_r, neg_mod_7_multiple. cbn [Nat.ltb Nat.leb].
  unfold Np.reshape_rows, Np.size. cbn [shape data fold_right Nat.eqb orb].
  rewrite Nat.mul_1_r, Nat.Div0.mod_mul, Nat.div_mul by discriminate.
  reflexivity.
Qed.

Lemma expand_pose_label (name : string) (m : nat) :
  expand_pose (ColumnLabel name) m
  = if m mod 7 =? 0
    then Ok (StrArray (NdArray [m / 7; 7] (repeat name m)))
    else Raise PadWidthError.
Proof.
  unfold expand_pose, expand_array. cbv zeta.
  rewrite repeat0_scalar. unfold Np.size. cbn [shape fold_right].
  rewrite Nat.mul_1_r.
  destruct (m mod 7 =? 0) eqn:E.
  - apply Nat.eqb_eq in E.
    replace (neg_mod m 7) with 0 by (symmetry; now apply neg_mod_7_zero_iff).
    cbn [Nat.ltb Nat.leb].
    unfold Np.reshape_rows, Np.size. cbn [shape data fold_right Nat.eqb orb].
    rewrite Nat.mul_1_r, E. reflexivity.
  - apply Nat.eqb_neq in E.
    assert (Hn : neg_mod m 7 <> 0) by (now rewrite neg_mod_7_zero_iff).
    destruct (0 <? neg_mod m 7) eqn:El; [reflexivity|].
    apply Nat.ltb_ge in El. lia.
Qed.

(** ** Step 3 and the loop of adjust_point_cloud_lengths *)

Lemma py_min_spec (xs : list nat) (m : nat) :
  py_min xs = Ok m -> In m xs /\ Forall (fun x => m <= x) xs.
Proof.
  destruct xs as [|x xs]; simpl; [discriminate|].
  intros H. injection H as <-.
  assert (G : forall l a, (fold_left Nat.min l a = a \/ In (fold_left Nat.min l a) l)
                          /\ fold_left Nat.min l a <= a
                          /\ Forall (fun y => fold_left Nat.min l a <= y) l).
  { induction l as [|y l IH]; intros a; simpl.
    - repeat split; auto.
    - destruct (IH (Nat.min a y)) as (Hin & Hle & Hall).
      split; [|split].
      + destruct Hin as [E|Hin]; [|now right; right].
        rewrite E. destruct (Nat.min_spec a y) as [[_ ->]|[_ ->]]; auto.
      + lia.
      + constructor; [lia | exact Hall]. }
  destruct (G xs x) as (Hin & Hle & Hall).
  split.
  - destruct Hin as [->|Hin]; [now left | now right].
  - constructor; [exact Hle | exact Hall].
Qed.

Lemma adjust_loop (m : nat) (f : PoseItem -> PoseArray)
  (pairs : list (Cloud * PoseItem)) (adjusted : list Cloud) (expanded : list PoseArray) :
  (forall p, In p (retained m pairs) -> expand_pose (snd p) m = Ok (f (snd p))) ->
  for_each pairs (adjust_step m) (adjusted, expanded)
  = Ok (adjusted ++ map (fun p => Np.take m (fst p)) (retained m pairs),
        expanded ++ map (fun p => f (snd p)) (retained m pairs)).
Proof.
  revert adjusted expanded.
  induction pairs as [|[pc pose] pairs IH]; intros adjusted expanded H.
  - simpl. now rewrite !app_nil_r.
  - cbn [for_each adjust_step]. unfold retained in *. cbn [filter fst] in *.
    destruct (m <=? Np.len pc) eqn:E.
    + pose proof (H (pc, pose) (or_introl eq_refl)) as Hp. cbn [snd] in Hp.
      rewrite Hp. cbn [bind].
      rewrite IH by (intros; apply H; now right).
      cbn [map fst snd]. rewrite <- !app_assoc. reflexivity.
    + cbn [bind]. apply IH, H.
Qed.

Lemma adjust_loop_inv (m : nat) (pairs : list (Cloud * PoseItem))
  (adjusted adjusted' : list Cloud) (expanded expanded' : list PoseArray) :
  for_each pairs (adjust_step m) (adjusted, expanded) = Ok (adjusted', expanded') ->
  adjusted' = adjusted ++ map (fun p => Np.take m (fst p)) (retained m pairs)
  /\ exists new_poses,
      expanded' = expanded ++ new_poses
      /\ Forall2 (fun p ep => expand_pose (snd p) m = Ok ep) (retained m pairs) new_poses.
Proof.
  revert adjusted expanded.
  induction pairs as [|[pc pose] pairs IH]; intros adjusted expanded H.
  - simpl in H. injection H as <- <-. rewrite app_nil_r. split; [reflexivity|].
    exists []. rewrite app_nil_r. split; [reflexivity | constructor].
  - cbn [for_each adjust_step] in H. unfold retained in *. cbn [filter fst].
    destruct (m <=? Np.len pc) eqn:E.
    + destruct (expand_pose pose m) as [ep|] eqn:Ep; cbn [bind] in H; [|discriminate].
      apply IH in H. destruct H as (-> & new_poses & -> & Hall).
      rewrite <- !app_assoc. split; [reflexivity|].
      exists (ep :: new_poses). split; [reflexivity|].
      constructor; [exact Ep | exact Hall].
    + cbn [bind] in H. apply IH, H.
Qed.

Lemma take_len (m : nat) (pc : Cloud) : m <= Np.len pc -> Np.len (Np.take m pc) = m.
Proof. intros H. unfold Np.take, Np.len. cbn [shape hd]. fold (Np.len pc). lia. Qed.

Lemma reference_candidates_plot3d (raw_clouds : list RawCloud) :
  reference_candidates
    (map (fun cloud => NdArray [row_count cloud; 3] (pad_cloud cloud)) raw_clouds)
  = map row_count (filter (fun cloud => row_count cloud mod 3 =? 0) raw_clouds).
Proof.
  unfold reference_candidates.
  induction raw_clouds as [|cloud rest IH]; cbn [map filter]; [reflexivity|].
  change (Np.len (NdArray [row_count cloud; 3] (pad_cloud cloud)))
    with (row_count cloud).
  destruct (row_count cloud mod 3 =? 0); cbn [map]; rewrite IH; reflexivity.
Qed.

Lemma normalize_unfold (raw_clouds : list RawCloud) (poses : list Pose) :
  normalize raw_clouds poses
  = adjust_point_cloud_lengths (map reshaped raw_clouds) (iter_poses poses).
Proof. unfold normalize. rewrite plot3d_point_clouds_ok. reflexivity. Qed.

Lemma reference_length_unfold (raw_clouds : list RawCloud) :
  reference_length raw_clouds
  = py_min (map row_count (filter (fun cloud => row_count cloud mod 3 =? 0) raw_clouds)).
Proof.
  unfold reference_length. rewrite plot3d_point_clouds_ok. cbn [bind].
  now rewrite reference_candidates_plot3d.
Qed.

(** C2 as worded fails on a batch of a 3-value cloud and an 8-value cloud:
    the first was divisible by 3 before padding and has 1 row, the second
    needed padding and has 3 rows; line 254 returns 3, the wording gives 1. *)
Lemma C2_counterexample :
  reference_length [raw_cloud 3; raw_cloud 8] = Ok 3
  /\ spec_reference_length [raw_cloud 3; raw_cloud 8] = Ok 1
  /\ reference_length [raw_cloud 3; raw_cloud 8]
     <> spec_reference_length [raw_cloud 3; raw_cloud 8].
Proof. repeat split; try reflexivity. discriminate. Qed.

(** C2, amended. The reference length of line 254 is the least row count
    among the clouds whose row count, after padding and reshaping, is
    divisible by 3; whether a cloud needed padding in step 1 plays no part.
    It is the value the loop of the normalizer runs with. *)
Theorem C2_reference_length_over_row_counts_divisible_by_3
  (raw_clouds : list RawCloud) :
  reference_length raw_clouds
  = py_min (map row_count (filter (fun cloud => row_count cloud mod 3 =? 0) raw_clouds))
  /\ (forall poses,
         normalize raw_clouds poses
         = min_length <- reference_length raw_clouds ;;
           for_each (combine (map reshaped raw_clouds) (iter_poses poses))
                    (adjust_step min_length) ([], []))
  /\ (forall min_length,
         reference_length raw_clouds = Ok min_length ->
         (exists cloud, In cloud raw_clouds /\ row_count cloud = min_length
                        /\ min_length mod 3 = 0)
         /\ (forall cloud, In cloud raw_clouds -> row_count cloud mod 3 = 0 ->
                           min_length <= row_count cloud)).
Proof.
  split; [apply reference_length_unfold|]. split.
  - intros poses. rewrite normalize_unfold, reference_length_unfold.
    unfold adjust_point_cloud_lengths, reshaped.
    now rewrite reference_candidates_plot3d.
  - intros m H. rewrite reference_length_unfold in H.
    apply py_min_spec in H. destruct H as [Hin Hall]. split.
    + apply in_map_iff in Hin. destruct Hin as (cloud & <- & Hcloud).
      apply filter_In in Hcloud. destruct Hcloud as [Hcloud Hdiv].
      exists cloud. repeat split; [exact Hcloud | now apply Nat.eqb_eq].
    + intros cloud Hcloud Hdiv. rewrite Forall_forall in Hall. apply Hall.
      apply in_map, filter_In. split; [exact Hcloud | now apply Nat.eqb_eq].
Qed.

(** C2 at the batch of a 3-value and an 8-value cloud: the reference length
    3 is the row count of the second cloud, which needed padding. *)
Lemma C2_witness :
  reference_length [raw_cloud 3; raw_cloud 8] = Ok 3
  /\ exists cloud,
      In cloud [raw_cloud 3; raw_cloud 8] /\ row_count cloud = 3 /\ 3 mod 3 = 0.
Proof.
  split; [reflexivity|].
  exact (proj1 (proj2 (proj2 (C2_reference_length_over_row_counts_divisible_by_3
                                [raw_cloud 3; raw_cloud 8])) 3 eq_refl)).
Defined.

(** C3 as worded fails on the same batch: the 1-row cloud is shorter than
    the reference length 3 and is left out, so two pairs go in and one
    comes out. *)
Lemma C3_counterexample :
  exists adjusted expanded,
    normalize [raw_cloud 3; raw_cloud 8] [pose_35; pose_55] = Ok (adjusted, expanded)
    /\ length adjusted = 1
    /\ length adjusted <> length [raw_cloud 3; raw_cloud 8].
Proof.
  eexists; eexists. split; [reflexivity|]. split; [reflexivity | discriminate].
Qed.

Lemma retained_items (m : nat) (point_clouds : list Cloud) (items : list PoseItem)
  (p : Cloud * PoseItem) :
  In p (retained m (combine point_clouds items)) ->
  In (fst p) point_clouds /\ In (snd p) items /\ m <= Np.len (fst p).
Proof.
  unfold retained. intros H. apply filter_In in H. destruct H as [H Hle].
  destruct p as [pc item]. split; [|split].
  - eapply in_combine_l, H.
  - eapply in_combine_r, H.
  - now apply Nat.leb_le.
Qed.

Lemma retained_length {X : Type} (m : nat) (pairs : list (Cloud * X)) :
  length (retained m pairs) <= length pairs.
Proof. apply filter_length_le. Qed.

(** C3, amended. With 7-valued poses and a reference length [min_length],
    the normalizer returns, in input order, the pairs whose cloud has at
    least [min_length] rows, each cloud cut to its first [min_length] rows
    and each with one expanded pose; the pairs whose cloud is shorter are
    left out by the guard of line 261, so the output holds at most one
    sample per input pair, and one per pair when no cloud is shorter. *)
Theorem C3_emits_clouds_long_enough_truncated
  (point_clouds : list Cloud) (poses : list Pose) (min_length : nat) :
  Forall (fun pose => length pose = 7) poses ->
  py_min (reference_candidates point_clouds) = Ok min_length ->
  let pairs := combine point_clouds (iter_poses poses) in
  exists expanded,
    adjust_point_cloud_lengths point_clouds (iter_poses poses)
    = Ok (map (fun p => Np.take min_length (fst p)) (retained min_length pairs), expanded)
    /\ length expanded = length (retained min_length pairs)
    /\ length (retained min_length pairs) <= length pairs
    /\ (Forall (fun pc => min_length <= Np.len pc) point_clouds ->
        retained min_length pairs = pairs).
Proof.
  intros Hposes Hmin pairs.
  set (f := fun item => match item with
                        | PoseRow values =>
                            FloatArray (NdArray [min_length; 7]
                                                (concat (repeat values min_length)))
                        | ColumnLabel name => StrArray (Np.array1 [name])
                        end).
  exists (map (fun p => f (snd p)) (retained min_length pairs)).
  split; [|split; [|split]].
  - unfold adjust_point_cloud_lengths. rewrite Hmin. cbn [bind].
    fold pairs. rewrite (adjust_loop min_length f); [reflexivity|].
    intros p Hp. apply retained_items in Hp. destruct Hp as (_ & Hitem & _).
    unfold iter_poses in Hitem. apply in_map_iff in Hitem.
    destruct Hitem as (values & <- & Hin).
    rewrite Forall_forall in Hposes.
    now rewrite expand_pose_row by (apply Hposes, Hin).
  - apply length_map.
  - apply retained_length.
  - intros Hall. unfold retained. apply forallb_filter_id.
    apply forallb_forall. intros [pc item] Hin. cbn [fst].
    apply Nat.leb_le. rewrite Forall_forall in Hall.
    eapply Hall, in_combine_l, Hin.
Qed.

(** C3 at the batch of its counterexample: of the two pairs the second
    alone is returned. *)
Lemma C3_witness :
  exists expanded,
    adjust_point_cloud_lengths [reshaped (raw_cloud 3); reshaped (raw_cloud 8)]
                               (iter_poses [pose_35; pose_55])
    = Ok ([Np.take 3 (reshaped (raw_cloud 8))], expanded)
    /\ length expanded = 1.
Proof.
  destruct (C3_emits_clouds_long_enough_truncated
              [reshaped (raw_cloud 3); reshaped (raw_cloud 8)] [pose_35; pose_55] 3)
    as (expanded & Hrun & Hlen & _).
  - repeat constructor.
  - reflexivity.
  - exists expanded. split; [exact Hrun | exact Hlen].
Defined.

(** C5 as worded fails on a batch of one 4-value cloud, which needs padding
    and has 2 rows: the run ends in the ValueError of the builtin min(), which
    no [raise] of the script produces and which names no reference length. *)
Lemma C5_counterexample :
  length (raw_cloud 4) mod 3 <> 0
  /\ normalize [raw_cloud 4] [pose_35] = Raise MinEmptyError
  /\ raised_by_script MinEmptyError = false
  /\ forall msg, normalize [raw_cloud 4] [pose_35] <> Raise (ValueError msg).
Proof.
  split; [discriminate|]. split; [reflexivity|]. split; [reflexivity|].
  intros msg. discriminate.
Qed.

(** C5, amended. When no cloud has a row count divisible by 3, which is the
    candidate condition of line 254, adjust_point_cloud_lengths returns no
    batch, empty or other: it ends in the ValueError that the builtin min()
    raises on an empty iterable, whatever the poses; so does the normalizer
    on raw clouds none of which has a row count divisible by 3. *)
Theorem C5_no_candidate_ends_in_min_error :
  (forall (point_clouds : list Cloud) (lidar_poses : list PoseItem),
      reference_candidates point_clouds = [] ->
      adjust_point_cloud_lengths point_clouds lidar_poses = Raise MinEmptyError)
  /\ (forall (raw_clouds : list RawCloud) (poses : list Pose),
         Forall (fun cloud => row_count cloud mod 3 <> 0) raw_clouds ->
         normalize raw_clouds poses = Raise MinEmptyError).
Proof.
  assert (H1 : forall point_clouds lidar_poses,
             reference_candidates point_clouds = [] ->
             adjust_point_cloud_lengths point_clouds lidar_poses = Raise MinEmptyError).
  { intros point_clouds lidar_poses H. unfold adjust_point_cloud_lengths.
    rewrite H. reflexivity. }
  split; [exact H1|].
  intros raw_clouds poses H. rewrite normalize_unfold. apply H1.
  unfold reshaped. rewrite reference_candidates_plot3d.
  induction H as [|cloud rest Hc _ IH]; cbn [filter map]; [reflexivity|].
  apply Nat.eqb_neq in Hc. rewrite Hc. exact IH.
Qed.

(** C5 at a batch of one 4-value cloud. *)
Lemma C5_witness :
  Forall (fun cloud => row_count cloud mod 3 <> 0) [raw_cloud 4]
  /\ normalize [raw_cloud 4] [pose_35] = Raise MinEmptyError.
Proof.
  assert (H : Forall (fun cloud => row_count cloud mod 3 <> 0) [raw_cloud 4])
    by (repeat constructor; discriminate).
  split; [exact H|].
  exact (proj2 C5_no_candidate_ends_in_min_error [raw_cloud 4] [pose_35] H).
Defined.

(** C6. In every batch that adjust_point_cloud_lengths returns, each cloud
    has exactly the reference length of line 254 as its row count, there is
    one expanded pose per cloud and, when the poses are 7-valued, each
    expanded pose has that row count too. On clouds of 12, 9 and 15 rows,
    of 36, 27 and 45 raw values, the reference length is 9 and the three
    returned clouds have 9 rows. *)
Theorem C6_uniform_row_count :
  (forall (point_clouds : list Cloud) (lidar_poses : list PoseItem)
          (adjusted : list Cloud) (expanded : list PoseArray),
      adjust_point_cloud_lengths point_clouds lidar_poses = Ok (adjusted, expanded) ->
      exists min_length,
        py_min (reference_candidates point_clouds) = Ok min_length
        /\ Forall (fun pc => Np.len pc = min_length) adjusted
        /\ length expanded = length adjusted
        /\ (Forall is_pose_row lidar_poses ->
            Forall (fun ep => exists a, ep = FloatArray a /\ shape a = [min_length; 7])
                   expanded))
  /\ (let raw_clouds := [raw_cloud 36; raw_cloud 27; raw_cloud 45] in
      map row_count raw_clouds = [12; 9; 15]
      /\ reference_length raw_clouds = Ok 9
      /\ exists adjusted expanded,
          normalize raw_clouds [pose_35; sentinel_pose; pose_55] = Ok (adjusted, expanded)
          /\ map shape adjusted = [[9; 3]; [9; 3]; [9; 3]]).
Proof.
  split.
  - intros point_clouds lidar_poses adjusted expanded H.
    unfold adjust_point_cloud_lengths in H.
    destruct (py_min (reference_candidates point_clouds)) as [m|] eqn:Hmin;
      cbn [bind] in H; [|discriminate].
    exists m. split; [reflexivity|].
    apply adjust_loop_inv in H. cbn [app] in H.
    destruct H as (-> & new_poses & -> & Hall).
    split; [|split].
    + apply Forall_forall. intros pc Hpc. apply in_map_iff in Hpc.
      destruct Hpc as (p & <- & Hp). apply retained_items in Hp.
      now apply take_len.
    + rewrite length_map. symmetry. eapply Forall2_length, Hall.
    + intros Hrows. rewrite Forall_forall in Hrows.
      assert (Hret : forall p, In p (retained m (combine point_clouds lidar_poses)) ->
                               is_pose_row (snd p))
        by (intros p Hp; apply Hrows; now apply retained_items in Hp).
      clear Hrows Hmin. induction Hall as [|p ep ps eps Hp _ IH]; constructor.
      * destruct (Hret p (or_introl eq_refl)) as (values & Hitem & Hlen).
        rewrite Hitem, expand_pose_row in Hp by exact Hlen.
        injection Hp as <-. eexists. split; reflexivity.
      * apply IH. intros q Hq. apply Hret. now right.
  - cbv zeta. split; [reflexivity|]. split; [reflexivity|].
    eexists; eexists. split; reflexivity.
Qed.

(** C6 at the batch of 12, 9 and 15 rows: the returned clouds have the
    reference length 9 as their row count. *)
Lemma C6_witness :
  match adjust_point_cloud_lengths
          (map reshaped [raw_cloud 36; raw_cloud 27; raw_cloud 45])
          (iter_poses [pose_35; sentinel_pose; pose_55])
  with
  | Ok (adjusted, expanded) =>
      Forall (fun pc => Np.len pc = 9) adjusted /\ length expanded = length adjusted
  | Raise _ => False
  end.
Proof.
  destruct (adjust_point_cloud_lengths
              (map reshaped [raw_cloud 36; raw_cloud 27; raw_cloud 45])
              (iter_poses [pose_35; sentinel_pose; pose_55]))
    as [[adjusted expanded]|e] eqn:Hrun.
  - destruct (proj1 C6_uniform_row_count _ _ _ _ Hrun) as (m & Hmin & Hall & Hlen & _).
    vm_compute in Hmin. injection Hmin as <-. split; [exact Hall | exact Hlen].
  - vm_compute in Hrun. discriminate.
Defined.

(** C8. For a pose of 7 values and a reference length [min_length], the
    repeated pose holds 7 * min_length values, so the test of line 268 is
    false and the padding of line 270 is not run; the expanded pose has
    shape (min_length, 7) and each of its rows is the pose. *)
Theorem C8_pose_expansion_repeats_pose (values : Pose) (min_length : nat) :
  length values = 7 ->
  let repeated_pose := Np.repeat0 (Np.array_of_row values) min_length in
  Np.size repeated_pose = 7 * min_length
  /\ (0 <? neg_mod (Np.size repeated_pose) 7) = false
  /\ expand_array (Np.array_of_row values) min_length nan
     = Np.reshape_rows 7 repeated_pose
  /\ exists a,
      expand_pose (PoseRow values) min_length = Ok (FloatArray a)
      /\ has_shape a [min_length; 7]
      /\ Np.rows a = repeat values min_length.
Proof.
  intros H repeated_pose.
  assert (Hsize : Np.size repeated_pose = min_length * 7).
  { unfold repeated_pose. rewrite repeat0_row, H. unfold Np.size.
    cbn [shape fold_right]. now rewrite Nat.mul_1_r. }
  assert (Htest : (0 <? neg_mod (Np.size repeated_pose) 7) = false)
    by now rewrite Hsize, neg_mod_7_multiple.
  split; [rewrite Hsize; apply Nat.mul_comm|].
  split; [exact Htest|].
  split.
  { unfold expand_array. cbv zeta. fold repeated_pose. now rewrite Htest. }
  eexists. split; [apply expand_pose_row, H|]. split.
  - unfold has_shape. cbn [shape data fold_right]. split; [reflexivity|].
    rewrite (concat_repeat_length values min_length), H. lia.
  - unfold Np.rows. cbn [shape data]. rewrite <- H.
    apply (chunks_concat_repeat values min_length).
Qed.

(** C8 at the pose recorded under 35 and a reference length of 2. *)
Lemma C8_witness :
  length pose_35 = 7
  /\ exists a,
      expand_pose (PoseRow pose_35) 2 = Ok (FloatArray a)
      /\ has_shape a [2; 7]
      /\ Np.rows a = [pose_35; pose_35].
Proof.
  split; [reflexivity|].
  exact (proj2 (proj2 (proj2 (C8_pose_expansion_repeats_pose pose_35 2 eq_refl)))).
Defined.

(** ** The poses that reach adjust_point_cloud_lengths in the pipeline *)

(** C4. When extract_data_from_bag returns more than 7 clouds, the loop of
    adjust_point_cloud_lengths in extract_and_adjust_data runs over the
    items of the DataFrame of poses, which are its 7 column labels and not
    its rows: exactly 7 pairs are formed, each of a cloud and a label, and a
    batch that is returned holds at most 7 clouds, with as many expanded
    poses, each an array of copies of one column label. *)
Theorem C4_poses_paired_are_column_labels
  (bag_file : Bag) (seq_offset : Z) (point_clouds : list Cloud)
  (lidar_poses : DataFrame) :
  extract_data_from_bag bag_file seq_offset = Ok (point_clouds, lidar_poses) ->
  7 < length point_clouds ->
  iter_DataFrame lidar_poses = map ColumnLabel pose_columns
  /\ length (df_rows lidar_poses) = length point_clouds
  /\ extract_and_adjust_data bag_file seq_offset
     = adjust_point_cloud_lengths point_clouds (iter_DataFrame lidar_poses)
  /\ length (combine point_clouds (iter_DataFrame lidar_poses)) = 7
  /\ forall adjusted expanded,
      adjust_point_cloud_lengths point_clouds (iter_DataFrame lidar_poses)
      = Ok (adjusted, expanded) ->
      length adjusted <= 7
      /\ length expanded = length adjusted
      /\ Forall (fun ep => exists name a,
                     In name pose_columns /\ ep = StrArray a
                     /\ Forall (eq name) (data a))
                expanded.
Proof.
  intros Hrun Hlen.
  assert (Hall := extract_data_from_bag_ok bag_file seq_offset).
  rewrite Hrun in Hall. injection Hall as Hpc Hdf.
  assert (Hiter : iter_DataFrame lidar_poses = map ColumnLabel pose_columns)
    by (rewrite Hdf; reflexivity).
  assert (Hpairs : length (combine point_clouds (iter_DataFrame lidar_poses)) = 7).
  { rewrite length_combine, Hiter, length_map. cbn [pose_columns length]. lia. }
  split; [exact Hiter|]. split.
  { rewrite Hpc, Hdf. cbn [df_rows]. unfold Dict.values, Dict.keys.
    now rewrite !length_map. }
  split; [unfold extract_and_adjust_data; rewrite Hrun; reflexivity|].
  split; [exact Hpairs|].
  intros adjusted expanded Hadj. unfold adjust_point_cloud_lengths in Hadj.
  destruct (py_min (reference_candidates point_clouds)) as [m|];
    cbn [bind] in Hadj; [|discriminate].
  apply adjust_loop_inv in Hadj. cbn [app] in Hadj.
  destruct Hadj as (-> & new_poses & -> & Hexp).
  split; [|split].
  - rewrite length_map, <- Hpairs. apply retained_length.
  - rewrite length_map. symmetry. eapply Forall2_length, Hexp.
  - assert (Hret : forall p,
               In p (retained m (combine point_clouds (iter_DataFrame lidar_poses))) ->
               exists name, snd p = ColumnLabel name /\ In name pose_columns).
    { intros p Hp. apply retained_items in Hp. destruct Hp as (_ & Hitem & _).
      rewrite Hiter in Hitem. apply in_map_iff in Hitem.
      destruct Hitem as (name & <- & Hname). now exists name. }
    induction Hexp as [|p ep ps eps Hp _ IH]; constructor.
    + destruct (Hret p (or_introl eq_refl)) as (name & Hitem & Hname).
      rewrite Hitem, expand_pose_label in Hp.
      destruct (m mod 7 =? 0); [|discriminate]. injection Hp as <-.
      exists name. eexists. split; [exact Hname|]. split; [reflexivity|].
      cbn [data]. apply Forall_forall. intros x Hx.
      apply repeat_spec in Hx. now subst.
    + apply IH. intros q Hq. apply Hret. now right.
Qed.

(** C4 at a log of 8 clouds of 21 rows each: 8 clouds are extracted, and
    the batch that adjust_point_cloud_lengths returns holds at most 7 of
    them, each with an array of column labels. *)
Lemma C4_witness :
  match extract_data_from_bag eight_cloud_bag 25 with
  | Ok (point_clouds, lidar_poses) =>
      length point_clouds = 8
      /\ match adjust_point_cloud_lengths point_clouds (iter_DataFrame lidar_poses) with
         | Ok (adjusted, expanded) =>
             length adjusted <= 7
             /\ length expanded = length adjusted
             /\ Forall (fun ep => exists name a,
                            In name pose_columns /\ ep = StrArray a
                            /\ Forall (eq name) (data a))
                       expanded
         | Raise _ => False
         end
  | Raise _ => False
  end.
Proof.
  destruct (extract_data_from_bag eight_cloud_bag 25)
    as [[point_clouds lidar_poses]|e] eqn:Hrun.
  - pose proof Hrun as Hval. vm_compute in Hval. injection Hval as Hpc Hdf.
    assert (Hlen : length point_clouds = 8) by (rewrite <- Hpc; reflexivity).
    assert (Hmore : 7 < length point_clouds) by (rewrite Hlen; apply le_n).
    destruct (C4_poses_paired_are_column_labels _ _ _ _ Hrun Hmore)
      as (_ & _ & _ & _ & Hadj).
    split; [exact Hlen|].
    destruct (adjust_point_cloud_lengths point_clouds (iter_DataFrame lidar_poses))
      as [[adjusted expanded]|e] eqn:Hbatch.
    + exact (Hadj _ _ eq_refl).
    + rewrite <- Hpc, <- Hdf in Hbatch. vm_compute in Hbatch. discriminate.
  - vm_compute in Hrun. discriminate.
Defined.

(** ** The feature table *)

Lemma length_concat_rows {A : Type} (w : nat) (rs : list (list A)) :
  Forall (fun r => length r = w) rs -> length (concat rs) = length rs * w.
Proof.
  induction 1 as [|r rs Hr _ IH]; simpl; [reflexivity|].
  rewrite length_app, Hr, IH. reflexivity.
Qed.

Lemma concat_flat_map {A B : Type} (f : A -> list (list B)) (l : list A) :
  concat (flat_map f l) = flat_map (fun x => concat (f x)) l.
Proof.
  induction l as [|x l IH]; simpl; [reflexivity|].
  now rewrite concat_app, IH.
Qed.

Lemma vstack_same_width {A : Type} (c : nat) (arrays : list (ndarray A)) :
  arrays <> [] ->
  Forall (fun a => exists r, shape a = [r; c]) arrays ->
  Np.vstack arrays
  = Ok (NdArray [list_sum (map Np.len arrays); c] (flat_map data arrays)).
Proof.
  intros Hne Hall. unfold Np.vstack.
  destruct arrays as [|a0 rest] eqn:E; [congruence|]. rewrite <- E in *.
  assert (H0 : exists r, shape a0 = [r; c]).
  { rewrite Forall_forall in Hall. apply Hall. rewrite E. now left. }
  destruct H0 as [r ->].
  replace (forallb (Np.ncols_is c) arrays) with true; [reflexivity|].
  symmetry. apply forallb_forall. intros a Ha.
  rewrite Forall_forall in Hall. destruct (Hall a Ha) as [r' Hr'].
  unfold Np.ncols_is. rewrite Hr'. apply Nat.eqb_refl.
Qed.

Lemma joined_rows_spec (pc : ndarray byte) (lp : ndarray float) (n : nat) :
  has_shape pc [n; 3] -> has_shape lp [n; 7] ->
  length (joined_rows pc lp) = n
  /\ Forall (fun r => length r = 10) (joined_rows pc lp).
Proof.
  intros [Hs Hd] [Hs' Hd']. cbn [fold_right] in Hd, Hd'.
  rewrite Nat.mul_1_r in Hd, Hd'.
  unfold joined_rows, Np.rows, Np.astype_float. cbn [shape data].
  rewrite Hs, Hs'. split.
  - rewrite length_map, length_combine, !chunks_length. apply Nat.min_id.
  - apply Forall_forall. intros r Hr. apply in_map_iff in Hr.
    destruct Hr as ([a b] & <- & Hab). cbn [fst snd]. rewrite length_app.
    assert (Ha : length a = 3).
    { apply in_combine_l in Hab. revert a Hab. apply Forall_forall.
      apply Forall_length_chunks. now rewrite length_map. }
    assert (Hb : length b = 7).
    { apply in_combine_r in Hab. revert b Hab. apply Forall_forall.
      now apply Forall_length_chunks. }
    now rewrite Ha, Hb.
Qed.

Lemma join_sample (pc : ndarray byte) (lp : ndarray float) (n : nat) :
  has_shape pc [n; 3] -> has_shape lp [n; 7] ->
  (reshaped <- Np.reshape_rows 3 pc ;; Np.concatenate1 (Np.astype_float reshaped) lp)
  = Ok (NdArray [n; 10] (concat (joined_rows pc lp))).
Proof.
  destruct pc as [pc_shape pc_data], lp as [lp_shape lp_data].
  intros [Hs _] [Hs' _]. cbn [shape] in Hs, Hs'. subst pc_shape lp_shape.
  unfold Np.reshape_rows, Np.size. cbn [shape data fold_right Nat.eqb orb].
  rewrite Nat.mul_1_r, Nat.Div0.mod_mul, Nat.div_mul by discriminate.
  cbn [Nat.eqb negb bind].
  unfold Np.concatenate1, Np.astype_float, joined_rows, Np.rows.
  cbn [shape data]. rewrite Nat.eqb_refl. reflexivity.
Qed.

Lemma prepare_loop (point_clouds : list (ndarray byte)) (row_counts : list nat) :
  Forall2 (fun pc n => has_shape pc [n; 3]) point_clouds row_counts ->
  forall (lidar_poses : list (ndarray float)) (input_data : list (ndarray float)),
    Forall2 (fun lp n => has_shape lp [n; 7]) lidar_poses row_counts ->
    for_each (combine point_clouds lidar_poses)
      (fun input_data '(pc, lp) =>
         reshaped <- Np.reshape_rows 3 pc ;;
         joined <- Np.concatenate1 (Np.astype_float reshaped) lp ;;
         Ok (input_data ++ [joined]))
      input_data
    = Ok (input_data
            ++ map (fun p => NdArray [length (joined_rows (fst p) (snd p)); 10]
                                     (concat (joined_rows (fst p) (snd p))))
                   (combine point_clouds lidar_poses))
    /\ map (fun p => length (joined_rows (fst p) (snd p)))
           (combine point_clouds lidar_poses) = row_counts
    /\ Forall (fun r => length r = 10)
              (flat_map (fun p => joined_rows (fst p) (snd p))
                        (combine point_clouds lidar_poses)).
Proof.
  induction 1 as [|pc n pcs ns Hpc _ IH]; intros lidar_poses input_data Hl;
    inversion Hl as [|lp n' lps ns' Hlp Hlps]; subst.
  - cbn. rewrite app_nil_r. repeat split. constructor.
  - destruct (joined_rows_spec pc lp n Hpc Hlp) as [Hlen Hrows].
    destruct (IH lps (input_data ++ [NdArray [n; 10] (concat (joined_rows pc lp))]) Hlps)
      as (Hrun & Hcounts & Hall).
    cbn [combine for_each map flat_map fst snd].
    pose proof (join_sample pc lp n Hpc Hlp) as Hj.
    destruct (Np.reshape_rows 3 pc) as [reshaped|]; cbn [bind] in Hj |- *;
      [|discriminate].
    rewrite Hj. cbn [bind]. rewrite Hrun, Hcounts, Hlen, <- app_assoc.
    repeat split. apply Forall_app. split; assumption.
Qed.

(** C10. For a non-empty list of samples whose clouds have shape (N, 3) and
    whose expanded poses have shape (N, 7), N being each sample's own,
    prepare_data_for_training returns a table of 10 columns and as many
    rows as the samples have together, whose rows are, sample after sample,
    each row of the cloud followed by the same row of the pose; of that
    table train_and_predict keeps the width 10 alone, and splits the clouds
    and poses it was given. *)
Theorem C10_feature_table_is_stacked_concatenation
  (point_clouds : list Cloud) (lidar_poses : list (ndarray float))
  (row_counts : list nat) :
  point_clouds <> [] ->
  Forall2 (fun pc n => has_shape pc [n; 3]) point_clouds row_counts ->
  Forall2 (fun lp n => has_shape lp [n; 7]) lidar_poses row_counts ->
  exists input_data,
    prepare_data_for_training point_clouds lidar_poses = Ok input_data
    /\ has_shape input_data [list_sum row_counts; 10]
    /\ Np.rows input_data
       = flat_map (fun p => joined_rows (fst p) (snd p))
                  (combine point_clouds lidar_poses)
    /\ training_setup point_clouds lidar_poses
       = Ok {| input_shape := 10;
               split_point_clouds := point_clouds;
               split_poses := lidar_poses |}.
Proof.
  intros Hne Hpc Hlp.
  destruct (prepare_loop point_clouds row_counts Hpc lidar_poses [] Hlp)
    as (Hrun & Hcounts & Hall).
  set (pairs := combine point_clouds lidar_poses) in *.
  set (all_rows := flat_map (fun p => joined_rows (fst p) (snd p)) pairs) in *.
  assert (Hpairs : pairs <> []).
  { unfold pairs. destruct Hpc; [congruence|]. inversion Hlp; subst. discriminate. }
  assert (Hrows : length all_rows = list_sum row_counts).
  { rewrite <- Hcounts. unfold all_rows. clear.
    induction pairs as [|p ps IH]; simpl; [reflexivity|].
    now rewrite length_app, IH. }
  assert (Hstack : prepare_data_for_training point_clouds lidar_poses
                   = Ok (NdArray [list_sum row_counts; 10] (concat all_rows))).
  { unfold prepare_data_for_training. fold pairs. rewrite Hrun. cbn [app bind].
    rewrite (vstack_same_width 10).
    - f_equal. f_equal.
      + f_equal. rewrite <- Hcounts, map_map. reflexivity.
      + unfold all_rows.
        rewrite concat_flat_map, !flat_map_concat_map, map_map. reflexivity.
    - destruct pairs; [congruence | discriminate].
    - apply Forall_forall. intros a Ha. apply in_map_iff in Ha.
      destruct Ha as (q & <- & _). eexists. reflexivity. }
  exists (NdArray [list_sum row_counts; 10] (concat all_rows)).
  split; [exact Hstack|]. split; [|split].
  - split; [reflexivity|]. cbn [data fold_right].
    rewrite (length_concat_rows 10) by exact Hall. rewrite Hrows. lia.
  - unfold Np.rows. cbn [shape data]. rewrite <- Hrows.
    now apply chunks_concat.
  - unfold training_setup. rewrite Hstack. reflexivity.
Qed.

(** C10 at one sample of 2 rows. *)
Lemma C10_witness :
  exists input_data,
    prepare_data_for_training [NdArray [2; 3] (raw_cloud 6)]
                              [NdArray [2; 7] (pose_35 ++ pose_55)]
    = Ok input_data
    /\ has_shape input_data [2; 10]
    /\ Np.rows input_data
       = [map Np.float_of_byte (raw_cloud 3) ++ pose_35;
          map Np.float_of_byte (raw_cloud 3) ++ pose_55].
Proof.
  destruct (C10_feature_table_is_stacked_concatenation
              [NdArray [2; 3] (raw_cloud 6)] [NdArray [2; 7] (pose_35 ++ pose_55)] [2])
    as (input_data & Hrun & Hshape & Hrows & _).
  - discriminate.
  - repeat constructor.
  - repeat constructor.
  - exists input_data. split; [exact Hrun|]. split; [exact Hshape|].
    rewrite Hrows. reflexivity.
Defined.

(** * Further properties of the data preparation *)

(** ** plot3d_point_clouds keeps every value *)

Lemma row_count_ceil (cloud : list byte) : row_count cloud = (length cloud + 2) / 3.
Proof.
  unfold row_count. rewrite length_pad_cloud.
  destruct (neg_mod_3_spec (length cloud)) as (Hk & Hmod & _).
  set (k := neg_mod (length cloud) 3) in *. set (n := length cloud) in *.
  pose proof (Nat.div_mod_eq (n + k) 3) as Hd. rewrite Hmod in Hd.
  apply (Nat.div_unique _ _ _ (2 - k)); lia.
Qed.

Lemma reshaped_has_shape (cloud : list byte) :
  has_shape (reshaped cloud) [row_count cloud; 3].
Proof.
  unfold has_shape, reshaped. cbn [shape data fold_right]. split; [reflexivity|].
  unfold row_count. pose proof (pad_cloud_aligned cloud) as H.
  pose proof (Nat.div_mod_eq (length (pad_cloud cloud)) 3). lia.
Qed.

(** plot3d_point_clouds returns for every input, whatever the poses, one
    array per cloud and in the same order; the array of a cloud of [n]
    values has shape (ceil(n / 3), 3), its first [n] items are the values of
    the cloud in their order and the items after them, fewer than 3, are
    zeros; a cloud without values gives an array of shape (0, 3). *)
Theorem plot3d_point_clouds_keeps_values
  (point_clouds : list (list byte)) (lidar_poses : list (list float)) :
  exists reshaped_clouds,
    plot3d_point_clouds point_clouds lidar_poses = Ok reshaped_clouds
    /\ Forall2 (fun cloud r =>
                  has_shape r [(length cloud + 2) / 3; 3]
                  /\ firstn (length cloud) (data r) = cloud
                  /\ Forall (eq x00) (skipn (length cloud) (data r))
                  /\ length (data r) < length cloud + 3
                  /\ (cloud = [] -> r = NdArray [0; 3] []))
               point_clouds reshaped_clouds.
Proof.
  eexists. split; [apply plot3d_point_clouds_ok|].
  induction point_clouds as [|cloud rest IH]; cbn [map]; constructor; [|exact IH].
  fold (reshaped cloud).
  destruct (neg_mod_3_spec (length cloud)) as (Hk & _ & _).
  split; [rewrite <- row_count_ceil; apply reshaped_has_shape|].
  unfold reshaped. cbn [data]. rewrite pad_cloud_spec.
  split; [|split; [|split]].
  - rewrite firstn_app, Nat.sub_diag, firstn_all, firstn_O. apply app_nil_r.
  - rewrite skipn_app, Nat.sub_diag, skipn_all. cbn [app skipn].
    apply Forall_forall. intros x Hx. apply repeat_spec in Hx. now subst.
  - rewrite length_app, repeat_length. lia.
  - intros ->. reflexivity.
Qed.

(** ** extract_data_from_bag *)

Lemma get_Some_In {V : Type} (d : Dict.t V) (k : Z) (v : V) :
  Dict.get k d = Some v -> In (k, v) d.
Proof.
  induction d as [|[k' v'] d IH]; simpl; [discriminate|].
  destruct (Z.eqb k' k) eqn:E.
  - intros H. injection H as <-. apply Z.eqb_eq in E. subst. now left.
  - intros H. right. now apply IH.
Qed.

Lemma pose_records_have_7_values (bag : list Message) (s : Z) (pose : list float) :
  In (s, pose) (pose_records bag) -> length pose = 7.
Proof.
  unfold pose_records. intros H. apply in_flat_map in H.
  destruct H as (msg & _ & H). destruct msg; cbn in H; try contradiction.
  destruct H as [H|[]]. injection H as _ <-. reflexivity.
Qed.

Lemma pose_for_has_7_values (bag : list Message) (seq_offset s : Z) :
  length (pose_for (snd (read_messages bag)) seq_offset s) = 7.
Proof.
  unfold pose_for. rewrite read_messages_records. cbn [snd].
  rewrite get_dict_of_records.
  destruct (Dict.get (s + seq_offset)%Z (rev (pose_records bag))) as [pose|] eqn:E.
  - apply get_Some_In, in_rev in E. eapply pose_records_have_7_values, E.
  - reflexivity.
Qed.

(** extract_data_from_bag returns for every log and offset: no subscript
    fails and no cloud is refused. It returns one array of 3 columns per
    distinct sequence number of the point-cloud topic and a table of the 7
    pose columns with one row per array, every row holding 7 values; on a
    log without point cloud both are empty. *)
Theorem extract_data_from_bag_well_formed (bag_file : list Message) (seq_offset : Z) :
  exists point_clouds lidar_poses,
    extract_data_from_bag bag_file seq_offset = Ok (point_clouds, lidar_poses)
    /\ length point_clouds = length (first_seen (map fst (cloud_records bag_file)))
    /\ Forall (fun pc => exists n, has_shape pc [n; 3]) point_clouds
    /\ df_columns lidar_poses = pose_columns
    /\ length (df_rows lidar_poses) = length point_clouds
    /\ Forall (fun row => length row = length (df_columns lidar_poses))
              (df_rows lidar_poses)
    /\ (cloud_records bag_file = [] -> point_clouds = [] /\ df_rows lidar_poses = []).
Proof.
  eexists; eexists. split; [apply extract_data_from_bag_ok|].
  cbn [df_columns df_rows].
  assert (Hkeys : Dict.keys (fst (read_messages bag_file))
                  = first_seen (map fst (cloud_records bag_file))).
  { rewrite read_messages_records. apply keys_dict_of_records. }
  split; [|split; [|split; [|split; [|split]]]].
  - rewrite <- Hkeys. unfold Dict.values, Dict.keys. now rewrite !length_map.
  - apply Forall_forall. intros pc Hpc. apply in_map_iff in Hpc.
    destruct Hpc as (cloud & <- & _). eexists. apply reshaped_has_shape.
  - reflexivity.
  - unfold Dict.values, Dict.keys. now rewrite !length_map.
  - apply Forall_forall. intros row Hrow. apply in_map_iff in Hrow.
    destruct Hrow as (s & <- & _). apply pose_for_has_7_values.
  - intros Hnone. rewrite read_messages_records, Hnone. split; reflexivity.
Qed.

(** extract_data_from_bag reads a log through the sequence of its
    point-cloud messages and the sequence of its pose messages only: two
    logs that agree on both give the same result, whatever else they hold
    and however the two topics are interleaved. *)
Theorem extract_data_from_bag_ignores_interleaving
  (bag1 bag2 : list Message) (seq_offset : Z) :
  cloud_records bag1 = cloud_records bag2 ->
  pose_records bag1 = pose_records bag2 ->
  extract_data_from_bag bag1 seq_offset = extract_data_from_bag bag2 seq_offset.
Proof.
  intros Hc Hp. rewrite !extract_data_from_bag_ok, !read_messages_records.
  now rewrite Hc, Hp.
Qed.

(** The example log and a log that holds its two poses first, then its
    three clouds, give the same result. *)
Lemma extract_data_from_bag_ignores_interleaving_witness :
  extract_data_from_bag example_bag 25
  = extract_data_from_bag
      [ lidar_pose 35 {| p_x := 1; p_y := 2; p_z := 3 |}
                      {| q_x := 0; q_y := 0; q_z := 0; q_w := 1 |};
        lidar_pose 55 {| p_x := 4; p_y := 5; p_z := 6 |}
                      {| q_x := 0; q_y := 0; q_z := 1; q_w := 0 |};
        aligned_cloud 10 cloud_10; aligned_cloud 20 cloud_20;
        aligned_cloud 30 cloud_30 ] 25.
Proof.
  apply extract_data_from_bag_ignores_interleaving; reflexivity.
Defined.

(** ** adjust_point_cloud_lengths: what a batch holds *)

Lemma chunks_firstn {A : Type} (w m n : nat) (l : list A) :
  m <= n -> chunks w m (firstn (m * w) l) = firstn m (chunks w n l).
Proof.
  revert n l. induction m as [|m IH]; intros n l H; [reflexivity|].
  destruct n as [|n]; [lia|]. cbn [chunks firstn Nat.mul]. f_equal.
  - rewrite firstn_firstn. f_equal. lia.
  - rewrite skipn_firstn_comm.
    replace (w + m * w - w) with (m * w) by lia. apply IH. lia.
Qed.

Lemma take_leading_rows (pc : ndarray byte) (m n : nat) :
  has_shape pc [n; 3] -> m <= n ->
  has_shape (Np.take m pc) [m; 3]
  /\ Np.rows (Np.take m pc) = firstn m (Np.rows pc).
Proof.
  destruct pc as [pc_shape pc_data]. intros [Hs Hd] Hle.
  cbn [shape data fold_right] in Hs, Hd. subst pc_shape.
  unfold Np.take, Np.len, Np.stride, Np.rows, has_shape.
  cbn [shape data hd tl fold_right].
  rewrite Nat.min_l by exact Hle. rewrite Nat.mul_1_r in *.
  split; [split; [reflexivity|]|].
  - rewrite length_firstn. nia.
  - now apply chunks_firstn.
Qed.

(** In a batch that adjust_point_cloud_lengths returns from clouds of 3
    columns, the clouds are those of the pairs that pass the guard of line
    261, in their order, each reduced to its first [min_length] rows: the
    rows kept are the leading rows of the input cloud, unchanged, and the
    array has shape (min_length, 3). *)
Theorem adjusted_clouds_are_leading_rows
  (point_clouds : list (ndarray byte)) (lidar_poses : list PoseItem)
  (adjusted : list (ndarray byte)) (expanded : list PoseArray) :
  Forall (fun pc => exists n, has_shape pc [n; 3]) point_clouds ->
  adjust_point_cloud_lengths point_clouds lidar_poses = Ok (adjusted, expanded) ->
  exists min_length,
    py_min (reference_candidates point_clouds) = Ok min_length
    /\ Forall2 (fun p a => has_shape a [min_length; 3]
                           /\ Np.rows a = firstn min_length (Np.rows (fst p)))
               (retained min_length (combine point_clouds lidar_poses)) adjusted.
Proof.
  intros Hwf H. unfold adjust_point_cloud_lengths in H.
  destruct (py_min (reference_candidates point_clouds)) as [m|] eqn:Hmin;
    cbn [bind] in H; [|discriminate].
  exists m. split; [reflexivity|].
  apply adjust_loop_inv in H. cbn [app] in H. destruct H as (-> & _).
  assert (Hret : forall p, In p (retained m (combine point_clouds lidar_poses)) ->
                           exists n, has_shape (fst p) [n; 3] /\ m <= n).
  { intros p Hp. apply retained_items in Hp. destruct Hp as (Hin & _ & Hle).
    rewrite Forall_forall in Hwf. destruct (Hwf _ Hin) as [n Hn].
    exists n. split; [exact Hn|].
    unfold Np.len in Hle. destruct Hn as [Hs _]. now rewrite Hs in Hle. }
  induction (retained m (combine point_clouds lidar_poses)) as [|p ps IH];
    cbn [map]; constructor.
  - destruct (Hret p (or_introl eq_refl)) as (n & Hn & Hle).
    now apply (take_leading_rows (fst p) m n).
  - apply IH. intros q Hq. apply Hret. now right.
Qed.

(** On a cloud of 3 rows and a cloud of 4 rows the batch holds both, the
    second reduced to its first 3 rows. *)
Lemma adjusted_clouds_are_leading_rows_witness :
  match adjust_point_cloud_lengths
          [NdArray [3; 3] (raw_cloud 9);
           NdArray [4; 3] (cloud_10 ++ cloud_30 ++ cloud_10)]
          (iter_poses [pose_35; pose_55])
  with
  | Ok (adjusted, _) =>
      map Np.rows adjusted
      = [ [[x01; x01; x01]; [x01; x01; x01]; [x01; x01; x01]];
          [[x01; x02; x03]; [x08; x09; x0a]; [x0b; x0c; x0d]] ]
  | Raise _ => False
  end.
Proof.
  destruct (adjust_point_cloud_lengths
              [NdArray [3; 3] (raw_cloud 9);
               NdArray [4; 3] (cloud_10 ++ cloud_30 ++ cloud_10)]
              (iter_poses [pose_35; pose_55]))
    as [[adjusted expanded]|e] eqn:Hrun.
  - assert (Hwf : Forall (fun pc : ndarray byte => exists n, has_shape pc [n; 3])
                         [NdArray [3; 3] (raw_cloud 9);
                          NdArray [4; 3] (cloud_10 ++ cloud_30 ++ cloud_10)])
      by (repeat constructor; eexists; split; reflexivity).
    destruct (adjusted_clouds_are_leading_rows _ _ _ _ Hwf Hrun)
      as (m & Hmin & Hall).
    vm_compute in Hmin. injection Hmin as <-.
    inversion Hall as [|p1 a1 ps1 as1 [_ H1] Hall1]; subst.
    inversion Hall1 as [|p2 a2 ps2 as2 [_ H2] Hall2]; subst.
    inversion Hall2; subst. cbn [map]. rewrite H1, H2. reflexivity.
  - vm_compute in Hrun. discriminate.
Defined.

Lemma in_combine_exists {A B : Type} (x : A) (l : list A) (l' : list B) :
  In x l -> length l <= length l' -> exists y, In (x, y) (combine l l').
Proof.
  revert l'. induction l as [|a l IH]; intros l' Hin Hlen; [contradiction|].
  destruct l' as [|b l']; [simpl in Hlen; lia|].
  destruct Hin as [->|Hin].
  - exists b. now left.
  - destruct (IH l' Hin) as [y Hy]; [simpl in Hlen; lia|].
    exists y. now right.
Qed.

(** With poses of 7 values, at least one per cloud, and a reference length,
    adjust_point_cloud_lengths returns a batch, and the batch is not empty:
    it holds a cloud whose row count is the reference length, whole. *)
Theorem batch_holds_a_shortest_candidate
  (point_clouds : list (ndarray byte)) (poses : list (list float)) (min_length : nat) :
  Forall (fun pose => length pose = 7) poses ->
  length point_clouds <= length poses ->
  py_min (reference_candidates point_clouds) = Ok min_length ->
  exists adjusted expanded,
    adjust_point_cloud_lengths point_clouds (iter_poses poses) = Ok (adjusted, expanded)
    /\ length expanded = length adjusted
    /\ exists pc,
        In pc point_clouds /\ Np.len pc = min_length
        /\ In (Np.take min_length pc) adjusted.
Proof.
  intros Hposes Hlen Hmin.
  set (f := fun item => match item with
                        | PoseRow values =>
                            FloatArray (NdArray [min_length; 7]
                                                (concat (repeat values min_length)))
                        | ColumnLabel name => StrArray (Np.array1 [name])
                        end).
  set (pairs := combine point_clouds (iter_poses poses)).
  exists (map (fun p => Np.take min_length (fst p)) (retained min_length pairs)),
         (map (fun p => f (snd p)) (retained min_length pairs)).
  split; [|split].
  - unfold adjust_point_cloud_lengths. rewrite Hmin. cbn [bind]. fold pairs.
    rewrite (adjust_loop min_length f); [reflexivity|].
    intros p Hp. apply retained_items in Hp. destruct Hp as (_ & Hitem & _).
    unfold iter_poses in Hitem. apply in_map_iff in Hitem.
    destruct Hitem as (values & <- & Hin).
    rewrite Forall_forall in Hposes.
    now rewrite expand_pose_row by (apply Hposes, Hin).
  - now rewrite !length_map.
  - apply py_min_spec in Hmin. destruct Hmin as [Hin _].
    unfold reference_candidates in Hin. apply in_map_iff in Hin.
    destruct Hin as (pc & Hpc & Hin). apply filter_In in Hin.
    destruct Hin as [Hin _].
    destruct (in_combine_exists pc point_clouds (iter_poses poses) Hin) as [item Hitem].
    { unfold iter_poses. now rewrite length_map. }
    exists pc. split; [exact Hin|]. split; [exact Hpc|].
    apply in_map_iff. exists (pc, item). split; [reflexivity|].
    unfold retained. apply filter_In. split; [exact Hitem|].
    cbn [fst]. apply Nat.leb_le. lia.
Qed.

(** On the batch of a 1-row and a 3-row cloud the batch holds the 3-row
    cloud. *)
Lemma batch_holds_a_shortest_candidate_witness :
  exists adjusted expanded,
    adjust_point_cloud_lengths [reshaped (raw_cloud 3); reshaped (raw_cloud 8)]
                               (iter_poses [pose_35; pose_55]) = Ok (adjusted, expanded)
    /\ adjusted <> [].
Proof.
  destruct (batch_holds_a_shortest_candidate
              [reshaped (raw_cloud 3); reshaped (raw_cloud 8)] [pose_35; pose_55] 3)
    as (adjusted & expanded & Hrun & _ & pc & _ & _ & Hin).
  - repeat constructor.
  - apply le_n.
  - reflexivity.
  - exists adjusted, expanded. split; [exact Hrun|].
    intros ->. exact Hin.
Defined.

(** ** Pose expansion of a pose of any length *)

Lemma flat_map_repeat {A B : Type} (f : A -> list B) (v : A) (n : nat) :
  flat_map f (repeat v n) = concat (repeat (f v) n).
Proof. induction n as [|n IH]; simpl; [reflexivity | now rewrite IH]. Qed.

(** Lines 264-273 on a pose of any number of values [L]. When
    [min_length * L] is a multiple of 7 the repeated values are cut in rows
    of 7 as they are. Otherwise line 270 appends [k = -(min_length * L) % 7]
    NaN to each of the [min_length] rows, not to the values as a whole, and
    line 271 returns rows of 7 only when [min_length * (L + k)] is a
    multiple of 7; when it is not, reshape raises. *)
Theorem pose_expansion_of_any_length (values : list float) (min_length : nat) :
  let L := length values in
  let k := neg_mod (min_length * L) 7 in
  expand_pose (PoseRow values) min_length
  = if (min_length * L) mod 7 =? 0
    then Ok (FloatArray (NdArray [min_length * L / 7; 7]
                                 (concat (repeat values min_length))))
    else if (min_length * (L + k)) mod 7 =? 0
         then Ok (FloatArray
                    (NdArray [min_length * (L + k) / 7; 7]
                             (concat (repeat (values ++ repeat nan k) min_length))))
         else Raise (ReshapeError (min_length * (L + k)) 7).
Proof.
  intros L k. unfold expand_pose, expand_array. cbv zeta.
  rewrite repeat0_row. fold L. unfold Np.size. cbn [shape fold_right].
  rewrite !Nat.mul_1_r. fold k.
  destruct ((min_length * L) mod 7 =? 0) eqn:E.
  - apply Nat.eqb_eq in E.
    assert (Hk : k = 0) by (unfold k; now apply neg_mod_7_zero_iff).
    rewrite Hk. cbn [Nat.ltb Nat.leb].
    unfold Np.reshape_rows, Np.size. cbn [shape data fold_right Nat.eqb orb].
    rewrite Nat.mul_1_r, E. reflexivity.
  - apply Nat.eqb_neq in E.
    assert (Hk : k <> 0) by (unfold k; now rewrite neg_mod_7_zero_iff).
    replace (0 <? k) with true by (symmetry; apply Nat.ltb_lt; lia).
    unfold Np.pad_cols. cbn [shape data bind].
    pose proof (chunks_concat_repeat values min_length) as Hrows. fold L in Hrows.
    rewrite Hrows, flat_map_repeat.
    unfold Np.reshape_rows, Np.size. cbn [shape data fold_right Nat.eqb orb].
    rewrite Nat.mul_1_r.
    destruct ((min_length * (L + k)) mod 7 =? 0); reflexivity.
Qed.

(** A pose of 6 values: with a reference length of 1 the row is completed
    by one NaN, with a reference length of 2 each row is completed by two
    and reshape raises on 16 values. *)
Lemma pose_expansion_of_any_length_witness :
  expand_pose (PoseRow [1; 2; 3; 4; 5; 6]%float) 1
  = Ok (FloatArray (NdArray [1; 7] [1; 2; 3; 4; 5; 6; nan]%float))
  /\ expand_pose (PoseRow [1; 2; 3; 4; 5; 6]%float) 2 = Raise (ReshapeError 16 7).
Proof.
  split.
  - rewrite (pose_expansion_of_any_length [1; 2; 3; 4; 5; 6]%float 1). reflexivity.
  - rewrite (pose_expansion_of_any_length [1; 2; 3; 4; 5; 6]%float 2). reflexivity.
Defined.

(** ** adjust_point_cloud_lengths without clouds or without poses *)

(** Without clouds adjust_point_cloud_lengths ends in the ValueError of
    min(), whatever the poses. Without poses it pairs nothing: it returns
    the empty batch when some cloud has a row count divisible by 3, however
    many clouds there are, and ends in the same ValueError when none has. *)
Theorem adjust_point_cloud_lengths_without_input :
  (forall lidar_poses,
      adjust_point_cloud_lengths [] lidar_poses = Raise MinEmptyError)
  /\ (forall point_clouds,
         adjust_point_cloud_lengths point_clouds []
         = if existsb (fun pc => Np.len pc mod 3 =? 0) point_clouds
           then Ok ([], [])
           else Raise MinEmptyError).
Proof.
  split; [reflexivity|].
  intros point_clouds. unfold adjust_point_cloud_lengths, reference_candidates.
  replace (combine point_clouds []) with (@nil (ndarray byte * PoseItem))
    by (now destruct point_clouds).
  induction point_clouds as [|pc rest IH]; cbn [filter existsb map]; [reflexivity|].
  destruct (Np.len pc mod 3 =? 0); cbn [orb map py_min bind for_each].
  - reflexivity.
  - exact IH.
Qed.

(** ** extract_and_adjust_data: the pipeline as train_and_predict runs it *)

Lemma extract_and_adjust_data_unfold (bag_file : list Message) (seq_offset : Z) :
  extract_and_adjust_data bag_file seq_offset
  = adjust_point_cloud_lengths
      (map reshaped (Dict.values (fst (read_messages bag_file))))
      (map ColumnLabel pose_columns).
Proof.
  unfold extract_and_adjust_data. rewrite extract_data_from_bag_ok. reflexivity.
Qed.

Lemma adjust_loop_raises (m : nat) (e : PyError) (pairs : list (ndarray byte * PoseItem))
  (adjusted : list (ndarray byte)) (expanded : list PoseArray) :
  (forall p, In p (retained m pairs) -> expand_pose (snd p) m = Raise e) ->
  retained m pairs <> [] ->
  for_each pairs (adjust_step m) (adjusted, expanded) = Raise e.
Proof.
  induction pairs as [|[pc pose] pairs IH]; intros H Hne; [now elim Hne|].
  cbn [for_each adjust_step]. unfold retained in *. cbn [filter fst] in *.
  destruct (m <=? Np.len pc).
  - pose proof (H (pc, pose) (or_introl eq_refl)) as Hp. cbn [snd] in Hp.
    rewrite Hp. reflexivity.
  - cbn [bind]. now apply IH.
Qed.

Lemma retained_map_snd {X Y : Type} (f : X -> Y) (m : nat)
  (point_clouds : list (ndarray byte)) (xs : list X) :
  retained m (combine point_clouds (map f xs))
  = map (fun p => (fst p, f (snd p))) (retained m (combine point_clouds xs)).
Proof.
  unfold retained. revert xs.
  induction point_clouds as [|pc rest IH]; intros [|x xs]; cbn [map combine filter fst];
    try reflexivity.
  destruct (m <=? Np.len pc); cbn [map fst snd]; now rewrite IH.
Qed.

(** What extract_and_adjust_data does with the clouds and the pose table
    that extract_data_from_bag returns, [kept] being the clouds among the
    first 7 that have at least the reference length of rows, each with the
    column label it is paired with. Without a cloud whose row count is
    divisible by 3 it ends in the ValueError of min(). With a reference
    length that is a multiple of 7 it returns the kept clouds cut to that
    length, each with an array of copies of its label. With any other
    reference length it ends in the ValueError of np.pad as soon as a cloud
    is kept, and returns the empty batch when none is. *)
Theorem extract_and_adjust_data_outcome
  (bag_file : list Message) (seq_offset : Z)
  (point_clouds : list (ndarray byte)) (lidar_poses : DataFrame) :
  extract_data_from_bag bag_file seq_offset = Ok (point_clouds, lidar_poses) ->
  extract_and_adjust_data bag_file seq_offset
  = match py_min (reference_candidates point_clouds) with
    | Raise _ => Raise MinEmptyError
    | Ok min_length =>
        let kept := retained min_length (combine point_clouds (df_columns lidar_poses)) in
        if min_length mod 7 =? 0
        then Ok (map (fun p => Np.take min_length (fst p)) kept,
                 map (fun p => StrArray (NdArray [min_length / 7; 7]
                                                 (repeat (snd p) min_length)))
                     kept)
        else match kept with
             | [] => Ok ([], [])
             | _ :: _ => Raise PadWidthError
             end
    end.
Proof.
  intros Hrun. unfold extract_and_adjust_data. rewrite Hrun. cbn [bind].
  unfold adjust_point_cloud_lengths, iter_DataFrame.
  destruct (py_min (reference_candidates point_clouds)) as [m|e] eqn:Hmin; cbn [bind].
  - cbv zeta.
    set (kept := retained m (combine point_clouds (df_columns lidar_poses))).
    pose proof (retained_map_snd ColumnLabel m point_clouds (df_columns lidar_poses))
      as Hkept. fold kept in Hkept.
    destruct (m mod 7 =? 0) eqn:E.
    + rewrite (adjust_loop m (fun item =>
                 match item with
                 | ColumnLabel name => StrArray (NdArray [m / 7; 7] (repeat name m))
                 | PoseRow values => FloatArray (Np.array_of_row values)
                 end)).
      * rewrite Hkept, !map_map. reflexivity.
      * intros p Hp. rewrite Hkept in Hp. apply in_map_iff in Hp.
        destruct Hp as (q & <- & _). cbn [snd].
        now rewrite expand_pose_label, E.
    + destruct kept as [|q kept'] eqn:Ek.
      * rewrite (adjust_loop m (fun _ => StrArray (Np.array1 []))).
        -- now rewrite Hkept.
        -- intros p Hp. rewrite Hkept in Hp. contradiction.
      * apply adjust_loop_raises.
        -- intros p Hp. rewrite Hkept in Hp. apply in_map_iff in Hp.
           destruct Hp as (q' & <- & _). cbn [snd].
           now rewrite expand_pose_label, E.
        -- rewrite Hkept. discriminate.
  - unfold py_min in Hmin. destruct (reference_candidates point_clouds); [|discriminate].
    injection Hmin as <-. reflexivity.
Qed.

(** A log of one cloud of 9 values, hence of 3 rows: the reference length
    is 3 and the run ends in the ValueError of np.pad. *)
Lemma extract_and_adjust_data_outcome_witness :
  extract_and_adjust_data [aligned_cloud 1 (raw_cloud 9)] 25 = Raise PadWidthError.
Proof.
  rewrite (extract_and_adjust_data_outcome
             [aligned_cloud 1 (raw_cloud 9)] 25
             [reshaped (raw_cloud 9)]
             {| df_columns := pose_columns; df_rows := [sentinel_pose] |} eq_refl).
  reflexivity.
Defined.

(** The batch of extract_and_adjust_data does not depend on the poses of
    the log nor on the offset: two logs with the same point-cloud messages
    give the same outcome under any two offsets. *)
Theorem extract_and_adjust_data_ignores_poses
  (bag1 bag2 : list Message) (seq_offset1 seq_offset2 : Z) :
  cloud_records bag1 = cloud_records bag2 ->
  extract_and_adjust_data bag1 seq_offset1 = extract_and_adjust_data bag2 seq_offset2.
Proof.
  intros H. rewrite !extract_and_adjust_data_unfold, !read_messages_records.
  cbn [fst]. now rewrite H.
Qed.

(** The log of 8 clouds, and the same log followed by a pose, under two
    offsets. *)
Lemma extract_and_adjust_data_ignores_poses_witness :
  extract_and_adjust_data eight_cloud_bag 25
  = extract_and_adjust_data
      (eight_cloud_bag ++ [lidar_pose 26 {| p_x := 1; p_y := 2; p_z := 3 |}
                                         {| q_x := 0; q_y := 0; q_z := 0; q_w := 1 |}])
      0.
Proof.
  apply extract_and_adjust_data_ignores_poses. reflexivity.
Defined.

(** ** prepare_data_for_training: what it refuses and what it accepts *)

Lemma join_sample_shapes (pc : ndarray byte) (lp : ndarray float) (n n' : nat) :
  has_shape pc [n; 3] -> shape lp = [n'; 7] ->
  (reshaped <- Np.reshape_rows 3 pc ;; Np.concatenate1 (Np.astype_float reshaped) lp)
  = if n =? n'
    then Ok (NdArray [n; 10] (concat (joined_rows pc lp)))
    else Raise ConcatenateError.
Proof.
  destruct pc as [pc_shape pc_data], lp as [lp_shape lp_data].
  intros [Hs _] Hs'. cbn [shape] in Hs, Hs'. subst pc_shape lp_shape.
  unfold Np.reshape_rows, Np.size. cbn [shape data fold_right Nat.eqb orb].
  rewrite Nat.mul_1_r, Nat.Div0.mod_mul, Nat.div_mul by discriminate.
  cbn [Nat.eqb negb bind].
  unfold Np.concatenate1, Np.astype_float, joined_rows, Np.rows.
  cbn [shape data]. destruct (n =? n'); reflexivity.
Qed.

Lemma prepare_loop_mismatch (pairs : list (ndarray byte * ndarray float))
  (input_data : list (ndarray float)) :
  Forall (fun p => (exists n, has_shape (fst p) [n; 3])
                   /\ exists n', shape (snd p) = [n'; 7]) pairs ->
  Exists (fun p => Np.len (fst p) <> Np.len (snd p)) pairs ->
  for_each pairs
    (fun input_data '(pc, lp) =>
       reshaped <- Np.reshape_rows 3 pc ;;
       joined <- Np.concatenate1 (Np.astype_float reshaped) lp ;;
       Ok (input_data ++ [joined]))
    input_data
  = Raise ConcatenateError.
Proof.
  intros Hwf. revert input_data.
  induction Hwf as [|[pc lp] pairs [[n Hn] [n' Hn']] _ IH]; intros input_data Hex.
  - inversion Hex.
  - cbn [fst snd] in Hn, Hn'. cbn [for_each].
    pose proof (join_sample_shapes pc lp n n' Hn Hn') as Hj.
    destruct (Np.reshape_rows 3 pc) as [r|e]; cbn [bind] in Hj |- *.
    + rewrite Hj. destruct (n =? n') eqn:E; [|reflexivity].
      cbn [bind]. apply IH. inversion Hex as [? ? Hne|? ? Hrest]; subst; [|exact Hrest].
      exfalso. apply Hne. unfold Np.len. cbn [fst snd].
      destruct Hn as [-> _]. rewrite Hn'. cbn [hd]. now apply Nat.eqb_eq.
    + destruct (n =? n'); [discriminate | now injection Hj as ->].
Qed.

(** prepare_data_for_training ends in the ValueError of NumPy, and returns
    no table, when it is given no cloud or no pose (np.vstack has nothing to
    stack) and when, among clouds of 3 columns and poses of 7 columns, some
    sample pairs a cloud and a pose of different row counts. *)
Theorem prepare_data_for_training_refuses :
  (forall lidar_poses, prepare_data_for_training [] lidar_poses = Raise ConcatenateError)
  /\ (forall point_clouds, prepare_data_for_training point_clouds [] = Raise ConcatenateError)
  /\ (forall point_clouds lidar_poses,
         Forall (fun pc => exists n, has_shape pc [n; 3]) point_clouds ->
         Forall (fun lp => exists n, shape lp = [n; 7]) lidar_poses ->
         Exists (fun p => Np.len (fst p) <> Np.len (snd p))
                (combine point_clouds lidar_poses) ->
         prepare_data_for_training point_clouds lidar_poses = Raise ConcatenateError).
Proof.
  split; [reflexivity|]. split.
  - intros point_clouds. unfold prepare_data_for_training.
    replace (combine point_clouds []) with (@nil (ndarray byte * ndarray float))
      by (now destruct point_clouds).
    reflexivity.
  - intros point_clouds lidar_poses Hpc Hlp Hex. unfold prepare_data_for_training.
    rewrite prepare_loop_mismatch; [reflexivity | | exact Hex].
    apply Forall_forall. intros [pc lp] Hin. cbn [fst snd]. split.
    + rewrite Forall_forall in Hpc. eapply Hpc, in_combine_l, Hin.
    + rewrite Forall_forall in Hlp. eapply Hlp, in_combine_r, Hin.
Qed.

(** A cloud of 2 rows with a pose array of 1 row. *)
Lemma prepare_data_for_training_refuses_witness :
  prepare_data_for_training [NdArray [2; 3] (raw_cloud 6)] [NdArray [1; 7] pose_35]
  = Raise ConcatenateError.
Proof.
  apply (proj2 (proj2 prepare_data_for_training_refuses)).
  - repeat constructor. eexists. split; reflexivity.
  - repeat constructor. eexists. reflexivity.
  - constructor. discriminate.
Defined.

Lemma prepare_data_for_training_ok
  (point_clouds : list (ndarray byte)) (lidar_poses : list (ndarray float))
  (row_counts : list nat) :
  point_clouds <> [] ->
  Forall2 (fun pc n => has_shape pc [n; 3]) point_clouds row_counts ->
  Forall2 (fun lp n => has_shape lp [n; 7]) lidar_poses row_counts ->
  prepare_data_for_training point_clouds lidar_poses
  = Ok (NdArray [list_sum row_counts; 10]
                (concat (flat_map (fun p => joined_rows (fst p) (snd p))
                                  (combine point_clouds lidar_poses))))
  /\ has_shape (NdArray [list_sum row_counts; 10]
                        (concat (flat_map (fun p => joined_rows (fst p) (snd p))
                                          (combine point_clouds lidar_poses))))
               [list_sum row_counts; 10].
Proof.
  intros Hne Hpc Hlp.
  destruct (prepare_loop point_clouds row_counts Hpc lidar_poses [] Hlp)
    as (Hrun & Hcounts & Hall).
  set (pairs := combine point_clouds lidar_poses) in *.
  set (all_rows := flat_map (fun p => joined_rows (fst p) (snd p)) pairs) in *.
  assert (Hpairs : pairs <> []).
  { unfold pairs. destruct Hpc; [congruence|]. inversion Hlp; subst. discriminate. }
  assert (Hrows : length all_rows = list_sum row_counts).
  { rewrite <- Hcounts. unfold all_rows. clear.
    induction pairs as [|p ps IH]; simpl; [reflexivity|].
    now rewrite length_app, IH. }
  split.
  - unfold prepare_data_for_training. fold pairs. rewrite Hrun. cbn [app bind].
    rewrite (vstack_same_width 10).
    + f_equal. f_equal.
      * f_equal. rewrite <- Hcounts, map_map. reflexivity.
      * unfold all_rows.
        rewrite concat_flat_map, !flat_map_concat_map, map_map. reflexivity.
    + destruct pairs; [congruence | discriminate].
    + apply Forall_forall. intros a Ha. apply in_map_iff in Ha.
      destruct Ha as (q & <- & _). eexists. reflexivity.
  - split; [reflexivity|]. cbn [data fold_right].
    rewrite (length_concat_rows 10) by exact Hall. rewrite Hrows. lia.
Qed.

Lemma retained_nonempty {X : Type} (point_clouds : list (ndarray byte)) (xs : list X)
  (m : nat) :
  py_min (reference_candidates point_clouds) = Ok m ->
  length point_clouds <= length xs ->
  retained m (combine point_clouds xs) <> [].
Proof.
  intros Hmin Hlen. apply py_min_spec in Hmin. destruct Hmin as [Hin _].
  unfold reference_candidates in Hin. apply in_map_iff in Hin.
  destruct Hin as (pc & Hpc & Hin). apply filter_In in Hin. destruct Hin as [Hin _].
  destruct (in_combine_exists pc point_clouds xs Hin Hlen) as [x Hx].
  assert (Hkept : In (pc, x) (retained m (combine point_clouds xs))).
  { unfold retained. apply filter_In. split; [exact Hx|].
    cbn [fst]. apply Nat.leb_le. lia. }
  intros E. rewrite E in Hkept. contradiction.
Qed.

Lemma list_sum_repeat (m k : nat) : list_sum (repeat m k) = k * m.
Proof. induction k as [|k IH]; simpl; [reflexivity | now rewrite IH]. Qed.

(** The batch that adjust_point_cloud_lengths returns from clouds of 3
    columns and poses of 7 values, at least one per cloud, is one that
    prepare_data_for_training accepts: the table has one row per row of the
    batch, that is the number of samples times the reference length, and 10
    columns, and train_and_predict would read the width 10 from it. *)
Theorem adjusted_batch_feeds_training
  (point_clouds : list (ndarray byte)) (poses : list (list float)) (min_length : nat) :
  Forall (fun pc => exists n, has_shape pc [n; 3]) point_clouds ->
  Forall (fun pose => length pose = 7) poses ->
  length point_clouds <= length poses ->
  py_min (reference_candidates point_clouds) = Ok min_length ->
  exists adjusted expanded input_data,
    adjust_point_cloud_lengths point_clouds (iter_poses poses)
    = Ok (adjusted, map FloatArray expanded)
    /\ adjusted <> []
    /\ prepare_data_for_training adjusted expanded = Ok input_data
    /\ has_shape input_data [length adjusted * min_length; 10]
    /\ training_setup adjusted expanded
       = Ok {| input_shape := 10;
               split_point_clouds := adjusted;
               split_poses := expanded |}.
Proof.
  intros Hwf Hposes Hlen Hmin.
  set (kept := retained min_length (combine point_clouds poses)).
  set (adjusted := map (fun p => Np.take min_length (fst p)) kept).
  set (expanded := map (fun p => NdArray [min_length; 7]
                                         (concat (repeat (snd p) min_length))) kept).
  assert (Hkept : kept <> []) by now apply retained_nonempty.
  assert (Hrun : adjust_point_cloud_lengths point_clouds (iter_poses poses)
                 = Ok (adjusted, map FloatArray expanded)).
  { unfold adjust_point_cloud_lengths, iter_poses. rewrite Hmin. cbn [bind].
    rewrite (adjust_loop min_length
               (fun item => match item with
                            | PoseRow values =>
                                FloatArray (NdArray [min_length; 7]
                                                    (concat (repeat values min_length)))
                            | ColumnLabel name => StrArray (Np.array1 [name])
                            end)).
    - rewrite retained_map_snd. fold kept. unfold adjusted, expanded.
      rewrite !map_map. reflexivity.
    - intros p Hp. rewrite retained_map_snd in Hp. apply in_map_iff in Hp.
      destruct Hp as (q & <- & Hq). cbn [snd].
      apply expand_pose_row. rewrite Forall_forall in Hposes.
      apply Hposes. apply filter_In in Hq. destruct Hq as [Hq _].
      destruct q as [pc pose]. eapply in_combine_r, Hq. }
  assert (Hshapes :
            Forall2 (fun pc n => has_shape pc [n; 3]) adjusted
                    (repeat min_length (length kept))
            /\ Forall2 (fun lp n => has_shape lp [n; 7]) expanded
                       (repeat min_length (length kept))).
  { assert (Hall : forall p, In p kept ->
                             length (snd p) = 7
                             /\ exists n, has_shape (fst p) [n; 3] /\ min_length <= n).
    { intros [pc pose] Hp. apply filter_In in Hp. destruct Hp as [Hp Hle].
      cbn [fst snd] in *. apply Nat.leb_le in Hle.
      rewrite Forall_forall in Hwf, Hposes.
      split; [apply Hposes; eapply in_combine_r, Hp|].
      destruct (Hwf pc (in_combine_l _ _ _ _ Hp)) as [n Hn].
      exists n. split; [exact Hn|].
      unfold Np.len in Hle. destruct Hn as [Hs _]. now rewrite Hs in Hle. }
    unfold adjusted, expanded. clear Hrun Hkept adjusted expanded.
    induction kept as [|p ps IH]; cbn [map length repeat]; split; constructor.
    - destruct (Hall p (or_introl eq_refl)) as (_ & n & Hn & Hle).
      now apply (take_leading_rows (fst p) min_length n).
    - apply IH. intros q Hq. apply Hall. now right.
    - split; [reflexivity|]. cbn [data fold_right].
      destruct (Hall p (or_introl eq_refl)) as (H7 & _).
      rewrite (concat_repeat_length (snd p) min_length), H7. lia.
    - apply IH. intros q Hq. apply Hall. now right. }
  assert (Hne : adjusted <> [])
    by (unfold adjusted; destruct kept; [congruence | discriminate]).
  destruct Hshapes as [Hpc Hlp].
  destruct (prepare_data_for_training_ok adjusted expanded _ Hne Hpc Hlp)
    as [Hprep Hshape].
  rewrite list_sum_repeat in Hshape, Hprep.
  replace (length kept) with (length adjusted) in Hshape, Hprep
    by (unfold adjusted; now rewrite length_map).
  exists adjusted, expanded. eexists.
  split; [exact Hrun|]. split; [exact Hne|]. split; [exact Hprep|].
  split; [exact Hshape|].
  unfold training_setup. rewrite Hprep. reflexivity.
Qed.

(** Two clouds of 3 and 4 rows with their poses: a batch of 2 samples of 3
    rows, and a table of 6 rows and 10 columns. *)
Lemma adjusted_batch_feeds_training_witness :
  exists adjusted expanded input_data,
    adjust_point_cloud_lengths [reshaped (raw_cloud 9); reshaped (raw_cloud 12)]
                               (iter_poses [pose_35; pose_55])
    = Ok (adjusted, map FloatArray expanded)
    /\ prepare_data_for_training adjusted expanded = Ok input_data
    /\ has_shape input_data [length adjusted * 3; 10].
Proof.
  destruct (adjusted_batch_feeds_training
              [reshaped (raw_cloud 9); reshaped (raw_cloud 12)] [pose_35; pose_55] 3)
    as (adjusted & expanded & input_data & Hrun & _ & Hprep & Hshape & _).
  - repeat constructor; eexists; apply reshaped_has_shape.
  - repeat constructor.
  - apply le_n.
  - reflexivity.
  - exists adjusted, expanded, input_data.
    split; [exact Hrun|]. split; [exact Hprep | exact Hshape].
Defined.

(** ** manual_split *)

Lemma slice_partition {A : Type} (xs : list A) (k : Z) :
  slice_to xs k ++ slice_from xs k = xs.
Proof. apply firstn_skipn. Qed.

Lemma int_of_float_nan_product (x : float) :
  int_of_float (x * (1 - nan))%float = None.
Proof.
  unfold int_of_float. rewrite mul_spec.
  change (Prim2SF (1 - nan)%float) with S754_nan.
  destruct (Prim2SF x) as [s|s| |s m e]; reflexivity.
Qed.

(** When manual_split returns, the training part followed by the test part
    is the data, and likewise for the labels: no sample is lost, repeated
    or moved, whatever the ratio, also one outside [0, 1], where the split
    index is negative or beyond the end. Data and labels of one length are
    cut at the same place. With a NaN ratio int() raises and nothing is
    returned. *)
Theorem manual_split_partitions :
  (forall (A B : Type) (data : list A) (labels : list B) (test_ratio : float)
          (X_train X_test : list A) (y_train y_test : list B),
      manual_split data labels test_ratio = Some (X_train, X_test, y_train, y_test) ->
      X_train ++ X_test = data
      /\ y_train ++ y_test = labels
      /\ (length labels = length data ->
          length y_train = length X_train /\ length y_test = length X_test))
  /\ (forall (A B : Type) (data : list A) (labels : list B),
         manual_split data labels nan = None).
Proof.
  split.
  - intros A B data labels test_ratio X_train X_test y_train y_test H.
    unfold manual_split in H. cbv zeta in H.
    destruct (int_of_float _) as [split_idx|]; [|discriminate].
    injection H as <- <- <- <-.
    split; [apply slice_partition|]. split; [apply slice_partition|].
    intros Hlen. unfold slice_to, slice_from. rewrite Hlen.
    rewrite !length_firstn, !length_skipn, Hlen. split; reflexivity.
  - intros A B data labels. unfold manual_split. cbv zeta.
    now rewrite int_of_float_nan_product.
Qed.

(** 20 samples under the default ratio: 17 for training and 3 for the test. *)
Lemma manual_split_partitions_witness :
  exists X_train X_test y_train y_test,
    manual_split (seq 0 20) (seq 100 20) 0x1.3333333333333p-3%float
    = Some (X_train, X_test, y_train, y_test)
    /\ X_train ++ X_test = seq 0 20
    /\ length X_train = 17 /\ length y_train = 17.
Proof.
  eexists; eexists; eexists; eexists.
  assert (Hrun : manual_split (seq 0 20) (seq 100 20) 0x1.3333333333333p-3%float
                 = Some (seq 0 17, seq 17 3, seq 100 17, seq 117 3))
    by (vm_compute; reflexivity).
  split; [exact Hrun|].
  destruct (proj1 manual_split_partitions _ _ _ _ _ _ _ _ _ Hrun) as (Hx & _ & _).
  split; [exact Hx|]. split; reflexivity.
Defined.
